(** * PawSense AI: pose features, action classifier and behaviour aggregator

    A shallow embedding of [src/pawsense_ai/feature_extraction.py],
    [action_classification.py] and [analyze_behavior.py], followed by the
    properties of the feature extractor, the rule-based classifier and the
    aggregator (debounce of "running", segmentation, per-frame records).

    Python floats are binary64 numbers ([PrimFloat.float]); Python ints are
    [Z]; a feature dict is a [gmap string pyval]; exceptions are the [Raise]
    results of a small error monad.  The numerical routines of numpy
    (reductions, norm, arccos) are an interface, [Numpy]: the code's own
    control flow is executable for every implementation of it. *)

From Stdlib Require Import ZArith Uint63 Floats.PrimFloat.
From Stdlib Require Floats.SpecFloat Floats.FloatOps.
From stdpp Require Import gmap strings list pretty sorting.

Set Warnings "-inexact-float".

Open Scope Z_scope.

(** ** Python values, exceptions *)

Module py.

(** The scalars that end up in a feature dict: the oscillation count and the
    defaults of [dict.get] are ints, everything else is a float. *)
Inductive pyval :=
| PInt (z : Z)
| PFloat (f : float).

Inductive exn :=
| KeyError (key : string)
| IndexError
| AttributeError
| ValueError
| ZeroDivisionError.

Inductive res (A : Type) :=
| Ok (a : A)
| Raise (e : exn).
Arguments Ok {A} a.
Arguments Raise {A} e.

#[export] Instance res_ret : MRet res := fun A a => Ok a.
#[export] Instance res_bind : MBind res := fun A B f m =>
  match m with
  | Ok a => f a
  | Raise e => Raise e
  end.

(** [float(n)] for an int; exact for [|n| < 2^53], which covers every frame
    count and constant of this program. *)
Definition float_of_int (z : Z) : float :=
  if z <? 0 then PrimFloat.opp (PrimFloat.of_uint63 (Uint63.of_Z (- z)))
  else PrimFloat.of_uint63 (Uint63.of_Z z).

Definition float_of (v : pyval) : float :=
  match v with
  | PInt z => float_of_int z
  | PFloat f => f
  end.

(** [a < b] and [a > b] on numbers. *)
Definition lt (a b : pyval) : bool :=
  match a, b with
  | PInt x, PInt y => x <? y
  | _, _ => PrimFloat.ltb (float_of a) (float_of b)
  end.
Definition gt (a b : pyval) : bool := lt b a.

(** [d[k]] and [d.get(k, default)]. *)
Definition getitem (d : gmap string pyval) (k : string) : res pyval :=
  match d !! k with
  | Some v => Ok v
  | None => Raise (KeyError k)
  end.
Definition get (d : gmap string pyval) (k : string) (dflt : pyval) : pyval :=
  default dflt (d !! k).

(** [l[i]] for [0 <= i]. *)
Definition index {A} (l : list A) (i : nat) : res A :=
  match l !! i with
  | Some x => Ok x
  | None => Raise IndexError
  end.

(** [a / b] on two ints. *)
Definition truediv (a b : Z) : res float :=
  if b =? 0 then Raise ZeroDivisionError
  else Ok (PrimFloat.div (float_of_int a) (float_of_int b)).

End py.
Export py.

(** ** Detections and numpy *)

Definition point : Type := float * float.
Definition kpts : Type := list point.
(** A box is [(cx, cy, w, h)]. *)
Definition bbox : Type := float * float * float * float.

(** One frame of the detector: [orig_shape], [keypoints.xy] (one row of
    keypoints per detected animal) and [boxes.xywh]. *)
Record Result := {
  orig_shape : Z * Z;
  keypoints_xy : list kpts;
  boxes_xywh : list bbox;
}.

Class Numpy := {
  np_dot : point -> point -> float;
  np_linalg_norm : point -> float;
  np_arccos : float -> float;
  np_degrees : float -> float;
  np_clip : float -> float -> float -> float;
  np_mean : list float -> float;
  np_std : list float -> float;
  np_var : list float -> float;
  np_min : list float -> float;
  np_max : list float -> float;
}.

Definition point_sub (a b : point) : point :=
  (PrimFloat.sub a.1 b.1, PrimFloat.sub a.2 b.2).

(** [xs[1:] - xs[:-1]], given the subtraction: the pairs (next, previous). *)
Definition successive {A} (xs : list A) : list (A * A) := zip (drop 1 xs) xs.

(** ** feature_extraction.py *)

Module feature_extraction.
Section with_numpy.
Context `{Numpy}.

Definition _process_result (result : Result) : res (option (kpts * bbox)) :=
  let '(img_w, img_h) := orig_shape result in
  match keypoints_xy result with
  | [] => Ok None
  | keypoints_xy0 :: _ =>
    match boxes_xywh result with
    | [] => Raise IndexError
    | (cx, cy, w, h) :: _ =>
      let bbox_norm : bbox :=
        (cx / float_of_int img_w, cy / float_of_int img_h,
         w / float_of_int img_w, h / float_of_int img_h)%float in
      let keypoints_norm : kpts :=
        (fun p : point => ((p.1 - cx) / w, (p.2 - cy) / h)%float) <$> keypoints_xy0 in
      Ok (Some (keypoints_norm, bbox_norm))
    end
  end.

Definition _compute_angle (a b c : point) : float :=
  let ba := point_sub a b in
  let bc := point_sub c b in
  let cos_theta :=
    (np_dot ba bc / (np_linalg_norm ba * np_linalg_norm bc + 1e-6))%float in
  np_degrees (np_arccos (np_clip cos_theta (-1)%float 1%float)).

(** [_compute_angle(kp[i], kp[j], kp[k])] *)
Definition angle_at (kp : kpts) (i j k : nat) : res float :=
  a ← index kp i; b ← index kp j; c ← index kp k;
  Ok (_compute_angle a b c).

(** [np.linalg.norm(kp[i] - kp[j])] *)
Definition distance_at (kp : kpts) (i j : nat) : res float :=
  a ← index kp i; b ← index kp j;
  Ok (np_linalg_norm (point_sub a b)).

Definition _extract_semantic_features (result : Result)
  : res (option (gmap string pyval * kpts)) :=
  pr ← _process_result result;
  match pr with
  | None => Ok None
  | Some (kpts_norm, bbox_norm) =>
    let features : gmap string pyval := ∅ in
    fl ← angle_at kpts_norm 0 1 2;
    let features := <["front_left_leg_angle" := PFloat fl]> features in
    fr ← angle_at kpts_norm 6 7 8;
    let features := <["front_right_leg_angle" := PFloat fr]> features in
    rl ← angle_at kpts_norm 3 4 5;
    let features := <["rear_left_leg_angle" := PFloat rl]> features in
    rr ← angle_at kpts_norm 9 10 11;
    let features := <["rear_right_leg_angle" := PFloat rr]> features in
    ta ← angle_at kpts_norm 13 12 22;
    let features := <["tail_angle" := PFloat ta]> features in
    pdf ← distance_at kpts_norm 0 6;
    let features := <["paw_distance_front" := PFloat pdf]> features in
    pdr ← distance_at kpts_norm 3 9;
    let features := <["paw_distance_rear" := PFloat pdr]> features in
    bl ← distance_at kpts_norm 22 13;
    let features := <["body_length" := PFloat bl]> features in
    hw ← distance_at kpts_norm 20 21;
    let features := <["head_width" := PFloat hw]> features in
    let '(_, _, w, h) := bbox_norm in
    let features := <["bbox_width" := PFloat w]> features in
    let features := <["bbox_height" := PFloat h]> features in
    Ok (Some (features, kpts_norm))
  end.

Fixpoint _count_peaks (values : list float) : Z :=
  match values with
  | prev :: rest =>
    match rest with
    | cur :: next :: _ =>
      (if (prev <? cur)%float && (next <? cur)%float then 1
       else if (cur <? prev)%float && (cur <? next)%float then 1
       else 0) + _count_peaks rest
    | _ => 0
    end
  | [] => 0
  end.

(** Mean height of two keypoints, [(kp[i][1] + kp[j][1]) / 2]. *)
Definition paws_y (kp : kpts) (i j : nat) : res float :=
  a ← index kp i; b ← index kp j;
  Ok ((a.2 + b.2) / 2)%float.

Definition leg_angles (kp : kpts) : res (list float) :=
  fl ← angle_at kp 0 1 2;
  fr ← angle_at kp 6 7 8;
  rl ← angle_at kp 3 4 5;
  rr ← angle_at kp 9 10 11;
  Ok [fl; fr; rl; rr].

(** Column [j] of a matrix given by rows. *)
Definition column (rows : list (list float)) (j : nat) : list float :=
  (fun r => default 0%float (r !! j)) <$> rows.

Definition _compute_motion_features
    (history_buffer : list (kpts * bbox)) (features : gmap string pyval)
  : res (gmap string pyval) :=
  let kpts_seq := fst <$> history_buffer in
  let bbox_seq := snd <$> history_buffer in
  (* np.array over buffered frames of different shapes is refused *)
  if negb (forallb (fun kp => (length kp =? length (default [] (head kpts_seq)))%nat)
             kpts_seq)
  then Raise ValueError else
  let diffs :=
    mjoin ((fun '(k1, k0) =>
             zip_with (fun p q => np_linalg_norm (point_sub p q)) k1 k0)
           <$> successive kpts_seq) in
  let avg_velocity := np_mean diffs in
  let features := <["avg_velocity" := PFloat avg_velocity]> features in
  tail_angles ← mapM (fun kp => angle_at kp 13 12 22) kpts_seq;
  let features := <["tail_angle_variance" := PFloat (np_std tail_angles)]> features in
  let features := <["tail_oscillation_count" := PInt (_count_peaks tail_angles)]> features in
  let centroid_y_seq := (fun b : bbox => b.1.1.2) <$> bbox_seq in
  let vertical_diffs := (fun '(a, b) => (a - b)%float) <$> successive centroid_y_seq in
  let features :=
    <["centroid_vertical_velocity" := PFloat (np_mean vertical_diffs)]> features in
  front_paws_y ← mapM (fun kp => paws_y kp 0 6) kpts_seq;
  rear_paws_y ← mapM (fun kp => paws_y kp 3 9) kpts_seq;
  let features :=
    <["front_paws_vertical_velocity" :=
        PFloat (np_mean ((fun '(a, b) => (a - b)%float) <$> successive front_paws_y))]>
      features in
  let features :=
    <["rear_paws_vertical_velocity" :=
        PFloat (np_mean ((fun '(a, b) => (a - b)%float) <$> successive rear_paws_y))]>
      features in
  let features :=
    <["bbox_center_variance" :=
        PFloat (np_mean [np_var ((fun b : bbox => b.1.1.1) <$> bbox_seq);
                         np_var ((fun b : bbox => b.1.1.2) <$> bbox_seq)])]>
      features in
  leg_angles_seq ← mapM leg_angles kpts_seq;
  let features :=
    <["leg_angle_variance" :=
        PFloat (np_mean (np_var <$> (column leg_angles_seq <$> [0; 1; 2; 3]%nat)))]>
      features in
  let leg_angle_diffs :=
    mjoin ((fun '(r1, r0) => zip_with (fun a b => PrimFloat.abs (a - b)) r1 r0)
           <$> successive leg_angles_seq) in
  let features :=
    <["leg_angle_change_rate" := PFloat (np_mean leg_angle_diffs)]> features in
  Ok features.

Record FeatureExtractor := {
  window_size : Z;
  history_buffer : list (kpts * bbox);
}.

(** [FeatureExtractor(window_size=60)] *)
Definition new (window_size : Z) : FeatureExtractor :=
  {| window_size := window_size; history_buffer := [] |}.

(** [update] returns the pair [(features, kpts_norm)], which is
    [(None, None)] on a frame without detection, and the extractor after
    the call. *)
Definition update (self : FeatureExtractor) (result : Result)
  : res (option (gmap string pyval * kpts) * FeatureExtractor) :=
  r ← _extract_semantic_features result;
  match r with
  | None => Ok (None, self)
  | Some (features, kpts_norm) =>
    pr ← _process_result result;
    match pr with
    | None => Raise AttributeError
    | Some (_, bbox_norm) =>
      let buffer := history_buffer self ++ [(kpts_norm, bbox_norm)] in
      let buffer :=
        if window_size self <? Z.of_nat (length buffer) then drop 1 buffer
        else buffer in
      let self := {| window_size := window_size self; history_buffer := buffer |} in
      if 2 <=? Z.of_nat (length buffer) then
        features ← _compute_motion_features buffer features;
        Ok (Some (features, kpts_norm), self)
      else
        let features := <["avg_velocity" := PFloat 0]> features in
        let features := <["tail_angle_variance" := PFloat 0]> features in
        let features := <["centroid_vertical_velocity" := PFloat 0]> features in
        let features := <["front_paws_vertical_velocity" := PFloat 0]> features in
        Ok (Some (features, kpts_norm), self)
    end
  end.

End with_numpy.
End feature_extraction.

(** ** action_classification.py *)

Module action_classification.

Definition VELOCITY_THRESHOLD_IDLE : pyval := PFloat 0.05.
Definition VELOCITY_THRESHOLD_WALK : pyval := PFloat 0.15.
Definition JUMP_VELOCITY_THRESHOLD : pyval := PFloat (-0.015).
Definition REAR_FRONT_VELOCITY_THRESHOLD : pyval := PFloat (-0.005).
Definition TAIL_VARIANCE_THRESHOLD : pyval := PFloat 9.0.
Definition TAIL_OSCILLATION_THRESHOLD : pyval := PInt 25.
Definition LEG_STRIDE_THRESHOLD : pyval := PFloat 15.0.

(** The local variables of [recognize_action] once the inputs are read
    (lines 19-38). *)
Record locals := {
  avg_vel : pyval;
  centroid_vy : pyval;
  front_vy : pyval;
  tail_variance : pyval;
  tail_oscillations : pyval;
  leg_stride_var : pyval;
  fl_angle : pyval;
  fr_angle : pyval;
  rl_angle : pyval;
  rr_angle : pyval;
  bbox_h : pyval;
  bbox_w : pyval;
  height_ratio : float;
  front_paws_y : float;
  rear_paws_y : float;
  paw_height_diff : float;
}.

(** Lines 19-38.  The floats of a feature dict are the numpy and torch
    scalars that the extractor stores: dividing them raises nothing, a zero
    divisor gives inf or nan (line 33).  On Python floats written by hand the
    same line raises ZeroDivisionError when [bbox_width] is [-1e-6]. *)
Definition read_locals (features : gmap string pyval) (keypoints_norm : kpts)
  : res locals :=
  let avg_vel := get features "avg_velocity" (PInt 0) in
  let centroid_vy := get features "centroid_vertical_velocity" (PInt 0) in
  let front_vy := get features "front_paws_vertical_velocity" (PInt 0) in
  let tail_variance := get features "tail_angle_variance" (PInt 0) in
  let tail_oscillations := get features "tail_oscillation_count" (PInt 0) in
  let leg_stride_var := get features "leg_angle_variance" (PInt 0) in
  fl_angle ← getitem features "front_left_leg_angle";
  fr_angle ← getitem features "front_right_leg_angle";
  rl_angle ← getitem features "rear_left_leg_angle";
  rr_angle ← getitem features "rear_right_leg_angle";
  bbox_h ← getitem features "bbox_height";
  bbox_w ← getitem features "bbox_width";
  let height_ratio := (float_of bbox_h / (float_of bbox_w + 1e-6))%float in
  k0 ← index keypoints_norm 0;
  k6 ← index keypoints_norm 6;
  let front_paws_y := ((k0.2 + k6.2) / 2)%float in
  k3 ← index keypoints_norm 3;
  k9 ← index keypoints_norm 9;
  let rear_paws_y := ((k3.2 + k9.2) / 2)%float in
  let paw_height_diff := (rear_paws_y - front_paws_y)%float in
  Ok {| avg_vel := avg_vel; centroid_vy := centroid_vy; front_vy := front_vy;
        tail_variance := tail_variance; tail_oscillations := tail_oscillations;
        leg_stride_var := leg_stride_var;
        fl_angle := fl_angle; fr_angle := fr_angle;
        rl_angle := rl_angle; rr_angle := rr_angle;
        bbox_h := bbox_h; bbox_w := bbox_w;
        height_ratio := height_ratio;
        front_paws_y := front_paws_y; rear_paws_y := rear_paws_y;
        paw_height_diff := paw_height_diff |}.

(** Step 2, the motion state (lines 49-57). *)
Definition motion (l : locals) : string :=
  if gt (avg_vel l) VELOCITY_THRESHOLD_IDLE then
    if gt (avg_vel l) VELOCITY_THRESHOLD_WALK
       && gt (leg_stride_var l) LEG_STRIDE_THRESHOLD
    then "running" else "walking"
  else "idle".

(** Lines 62-63. *)
Definition is_tail_wagging (l : locals) : bool :=
  gt (tail_variance l) TAIL_VARIANCE_THRESHOLD
  && gt (tail_oscillations l) TAIL_OSCILLATION_THRESHOLD.

(** Step 3, the primary pose (lines 60, 65-73). *)
Definition pose (l : locals) : string :=
  if String.eqb (motion l) "idle" then
    if (lt (rl_angle l) (PInt 70) || lt (rr_angle l) (PInt 70))
       && gt (fl_angle l) (PInt 60) && gt (fr_angle l) (PInt 60)
    then "sitting"
    else if gt (rl_angle l) (PInt 80) && gt (rr_angle l) (PInt 80)
            && gt (fl_angle l) (PInt 80) && gt (fr_angle l) (PInt 80)
    then "standing"
    else if gt (rl_angle l) (PInt 80) && gt (rr_angle l) (PInt 80)
            && (0.6 <? rear_paws_y l + PrimFloat.abs (front_paws_y l))%float
            && (1.5 <? height_ratio l)%float
    then "standing_on_two_legs"
    else if lt (rl_angle l) (PInt 40) && lt (rr_angle l) (PInt 40)
            && lt (fl_angle l) (PInt 50) && lt (fr_angle l) (PInt 50)
    then "lying"
    else "unknown"
  else "unknown".

(** The decision chain (lines 40-86). *)
Definition decide_action (l : locals) : string :=
  if lt (centroid_vy l) JUMP_VELOCITY_THRESHOLD then "jumping"
  else if lt (front_vy l) REAR_FRONT_VELOCITY_THRESHOLD
          || (0.3 <? paw_height_diff l)%float
  then "rearing"
  else if negb (String.eqb (motion l) "idle") then motion l
  else if String.eqb (pose l) "unknown" then "idle"
  else if is_tail_wagging l then pose l +:+ "_wagging"
  else pose l.

Definition recognize_action
    (features : option (gmap string pyval)) (keypoints_norm : option kpts)
  : res string :=
  match features, keypoints_norm with
  | Some features, Some keypoints_norm =>
    l ← read_locals features keypoints_norm;
    Ok (decide_action l)
  | _, _ => Ok "unknown"
  end.

End action_classification.

(** ** Text *)

(** Python's formats of a float with a fixed number of decimals,
    [f"{x:.1f}"], [f"{x:.4f}"] and [f"{x:.0f}"], and [float(text)]. *)
Class Formatting := {
  format_1f : float -> string;
  format_4f : float -> string;
  format_0f : float -> string;
  py_float : string -> res float;
}.

Module text.

(** The line feed and the percent sign. *)
Definition nl : string := String (Ascii.ascii_of_nat 10) EmptyString.
Definition percent : Ascii.ascii := Ascii.ascii_of_nat 37.

(** [s * n] *)
Fixpoint repeat (s : string) (n : nat) : string :=
  match n with
  | O => EmptyString
  | S n => s +:+ repeat s n
  end.

(** [sep.join(parts)] *)
Fixpoint join (sep : string) (parts : list string) : string :=
  match parts with
  | [] => EmptyString
  | [part] => part
  | part :: parts => part +:+ sep +:+ join sep parts
  end.

(** [s.upper()] on ASCII text. *)
Definition upper_char (c : Ascii.ascii) : Ascii.ascii :=
  let n := Ascii.nat_of_ascii c in
  if (97 <=? n)%nat && (n <=? 122)%nat then Ascii.ascii_of_nat (n - 32) else c.
Fixpoint upper (s : string) : string :=
  match s with
  | EmptyString => EmptyString
  | String c s => String (upper_char c) (upper s)
  end.

(** [s.rstrip(c)] for one character [c]. *)
Fixpoint rstrip (c : Ascii.ascii) (s : string) : string :=
  match s with
  | EmptyString => EmptyString
  | String c' s =>
    match rstrip c s with
    | EmptyString => if Ascii.eqb c' c then EmptyString else String c' EmptyString
    | rest => String c' rest
    end
  end.

(** [str(n)] of an int. *)
Definition str (n : Z) : string := pretty n.

End text.

(** ** analyze_behavior.py *)

Module analyze_behavior.
Import feature_extraction action_classification.
Section with_numpy.
Context `{Numpy}.

Definition MOTION_BUFFER_SIZE : Z := 5.

(** One entry of [frame_actions]. *)
Record frame_data := {
  frame : Z;
  action : string;
  velocity : float;
  tail_variance : float;
  is_tail_wagging : bool;
  centroid_vertical_velocity : float;
  leg_angle_variance : float;
}.

(** One entry of [action_segments]; [seg_action] is its key "action". *)
Record segment := {
  seg_action : string;
  start_frame : Z;
  end_frame : Z;
  duration_frames : Z;
  duration_seconds : float;
}.

(** One value of [action_stats]; the percentages and velocities are the
    numbers that the source then formats into strings. *)
Record action_stat := {
  total_frames : Z;
  percentage : float;
  avg_velocity : float;
  velocity_range : float * float;
  tail_wagging_frames : Z;
  tail_wagging_percentage : float;
}.

Record video_info := {
  info_total_frames : Z;
  info_duration_seconds : float;
  estimated_fps : Z;
}.

Record behavior_summary := {
  summary_video_info : video_info;
  action_statistics : gmap string action_stat;
  action_timeline : list segment;
  frame_by_frame_data : list frame_data;
}.

(** The temporal filtering of one label (lines 25-32): the label that is
    stored and the new [motion_history]. *)
Definition temporal_filter (action : string) (motion_history : list string)
  : string * list string :=
  if String.eqb action "running" then
    let motion_history := motion_history ++ ["running"] in
    let motion_history :=
      if MOTION_BUFFER_SIZE <? Z.of_nat (length motion_history)
      then drop 1 motion_history else motion_history in
    let action :=
      if Z.of_nat (length motion_history) <? MOTION_BUFFER_SIZE
      then "walking" else action in
    (action, motion_history)
  else (action, []).

(** The dict appended to [frame_actions] (lines 35-44). *)
Definition frame_record (idx : Z) (action : string) (features : gmap string pyval)
  : frame_data :=
  {| frame := idx;
     action := action;
     velocity := float_of (get features "avg_velocity" (PInt 0));
     tail_variance := float_of (get features "tail_angle_variance" (PInt 0));
     is_tail_wagging :=
       gt (get features "tail_angle_variance" (PInt 0)) (PFloat 9.0)
       && gt (get features "tail_oscillation_count" (PInt 0)) (PInt 10);
     centroid_vertical_velocity :=
       float_of (get features "centroid_vertical_velocity" (PInt 0));
     leg_angle_variance := float_of (get features "leg_angle_variance" (PInt 0)) |}.

(** The state of the first loop. *)
Record loop_state := {
  extractor : FeatureExtractor;
  motion_history : list string;
  frame_actions : list frame_data;
}.

Definition loop_body (st : loop_state) (idx : Z) (result : Result) : res loop_state :=
  '(r, extractor) ← update (extractor st) result;
  match r with
  | Some (features, kpts_norm) =>
    action ← recognize_action (Some features) (Some kpts_norm);
    let '(action, motion_history) := temporal_filter action (motion_history st) in
    Ok {| extractor := extractor;
          motion_history := motion_history;
          frame_actions := frame_actions st ++ [frame_record idx action features] |}
  | None =>
    Ok {| extractor := extractor;
          motion_history := motion_history st;
          frame_actions := frame_actions st |}
  end.

(** [for idx, result in enumerate(results)], from index [idx] on. *)
Fixpoint frame_loop (st : loop_state) (idx : Z) (results : list Result)
  : res loop_state :=
  match results with
  | [] => Ok st
  | result :: results =>
    st ← loop_body st idx result;
    frame_loop st (idx + 1) results
  end.

(** The segment closed when the scan is at position [i]. *)
Definition close_segment (current_action : string) (segment_start i : Z) : segment :=
  {| seg_action := current_action;
     start_frame := segment_start;
     end_frame := i - 1;
     duration_frames := i - segment_start;
     duration_seconds := (float_of_int (i - segment_start) / 30)%float |}.

(** The state of the second loop. *)
Record segment_state := {
  action_segments : list segment;
  current_action : option string;
  segment_start : Z;
}.

Definition segment_body (st : segment_state) (i : Z) (frame_data : frame_data)
  : segment_state :=
  if decide (Some (action frame_data) ≠ current_action st) then
    {| action_segments :=
         match current_action st with
         | Some a => action_segments st ++ [close_segment a (segment_start st) i]
         | None => action_segments st
         end;
       current_action := Some (action frame_data);
       segment_start := i |}
  else st.

(** [for i, frame_data in enumerate(frame_actions)], from position [i] on. *)
Fixpoint segment_loop (st : segment_state) (i : Z) (frames : list frame_data)
  : segment_state :=
  match frames with
  | [] => st
  | frame_data :: frames => segment_loop (segment_body st i frame_data) (i + 1) frames
  end.

(** Lines 46-72. *)
Definition segments_of (frame_actions : list frame_data) : list segment :=
  let st :=
    segment_loop {| action_segments := []; current_action := None; segment_start := 0 |}
      0 frame_actions in
  match current_action st with
  | Some a =>
    action_segments st
      ++ [close_segment a (segment_start st) (Z.of_nat (length frame_actions))]
  | None => action_segments st
  end.

(** The statistics of one action (lines 77-88). *)
Definition stat_of (frame_actions : list frame_data) (action_type : string)
  : res action_stat :=
  let action_frames := filter (fun f => action f = action_type) frame_actions in
  let velocities := velocity <$> action_frames in
  let tail_wags := filter (fun f => is_tail_wagging f = true) action_frames in
  pct ← truediv (Z.of_nat (length action_frames)) (Z.of_nat (length frame_actions));
  wag ← truediv (Z.of_nat (length tail_wags)) (Z.of_nat (length action_frames));
  Ok {| total_frames := Z.of_nat (length action_frames);
        percentage := (pct * 100)%float;
        avg_velocity := np_mean velocities;
        velocity_range := (np_min velocities, np_max velocities);
        tail_wagging_frames := Z.of_nat (length tail_wags);
        tail_wagging_percentage := (wag * 100)%float |}.

Fixpoint stats_loop (action_stats : gmap string action_stat)
    (frame_actions : list frame_data) (action_types : list string)
  : res (gmap string action_stat) :=
  match action_types with
  | [] => Ok action_stats
  | action_type :: action_types =>
    s ← stat_of frame_actions action_type;
    stats_loop (<[action_type := s]> action_stats) frame_actions action_types
  end.

(** Lines 75-88; the set of labels is walked in the order of [elements]. *)
Definition stats_of (frame_actions : list frame_data) : res (gmap string action_stat) :=
  stats_loop ∅ frame_actions
    (elements (list_to_set (action <$> frame_actions) : gset string)).

Definition analyze_behavior (results : list Result) : res behavior_summary :=
  let extractor := new 60 in
  st ← frame_loop {| extractor := extractor; motion_history := []; frame_actions := [] |}
        0 results;
  let frame_actions := frame_actions st in
  let action_segments := segments_of frame_actions in
  action_stats ← stats_of frame_actions;
  let total_frames := Z.of_nat (length frame_actions) in
  video_duration ← truediv total_frames 30;
  Ok {| summary_video_info :=
          {| info_total_frames := total_frames;
             info_duration_seconds := video_duration;
             estimated_fps := 30 |};
        action_statistics := action_stats;
        action_timeline := action_segments;
        frame_by_frame_data := frame_actions |}.

(** *** The first loop on labels

    [raw_labels] is the first loop without its temporal filter: for each
    frame the label of [recognize_action], or [None] when [update] reports
    no detection.  [debounce] is the temporal filter run over the labels of
    the processed frames. *)
Fixpoint raw_labels (extractor : FeatureExtractor) (results : list Result)
  : res (list (option string)) :=
  match results with
  | [] => Ok []
  | result :: results =>
    '(r, extractor) ← update extractor result;
    match r with
    | Some (features, kpts_norm) =>
      action ← recognize_action (Some features) (Some kpts_norm);
      rest ← raw_labels extractor results;
      Ok (Some action :: rest)
    | None =>
      rest ← raw_labels extractor results;
      Ok (None :: rest)
    end
  end.

Fixpoint debounce (motion_history : list string) (labels : list string)
  : list string :=
  match labels with
  | [] => []
  | action :: labels =>
    let '(action, motion_history) := temporal_filter action motion_history in
    action :: debounce motion_history labels
  end.

(** [motion_history] after the labels. *)
Fixpoint history_after (motion_history : list string) (labels : list string)
  : list string :=
  match labels with
  | [] => motion_history
  | action :: labels =>
    history_after (temporal_filter action motion_history).2 labels
  end.

End with_numpy.

(** *** get_prompt_data *)

Section with_formatting.
Context `{Formatting}.

(** The texts that [analyze_behavior] stores for a percentage (lines 83 and
    87) and for the velocity range (line 85); the summary of the model keeps
    the numbers. *)
Definition percent_text (x : float) : string := format_1f x +:+ "%".
Definition range_text (r : float * float) : string :=
  format_4f r.1 +:+ " - " +:+ format_4f r.2.

(** [float(text.rstrip('%'))] *)
Definition percent_value (s : string) : res float :=
  py_float (text.rstrip text.percent s).

(** The four lines of one action (lines 125-128). *)
Definition stat_lines (action : string) (stats : action_stat) : list string :=
  [text.nl +:+ text.upper action +:+ ":";
   "  Frequency: " +:+ text.str (total_frames stats) +:+ " frames ("
     +:+ percent_text (percentage stats) +:+ ")";
   "  Velocity: " +:+ range_text (velocity_range stats) +:+ " (avg: "
     +:+ format_4f (avg_velocity stats) +:+ ")";
   "  Tail Wagging: " +:+ text.str (tail_wagging_frames stats) +:+ " frames ("
     +:+ percent_text (tail_wagging_percentage stats) +:+ ")"].

(** The line of the segment number [i] (lines 135-137). *)
Definition segment_line (i : Z) (segment : segment) : string :=
  let time_str := format_1f (duration_seconds segment) +:+ "s" in
  let frame_str :=
    "frames " +:+ text.str (start_frame segment) +:+ "-" +:+ text.str (end_frame segment) in
  text.str i +:+ ". " +:+ text.upper (seg_action segment) +:+ ": " +:+ time_str
    +:+ " (" +:+ frame_str +:+ ")".

(** [for i, segment in enumerate(timeline, i)] *)
Fixpoint segment_lines (i : Z) (timeline : list segment) : list string :=
  match timeline with
  | [] => []
  | segment :: timeline => segment_line i segment :: segment_lines (i + 1) timeline
  end.

(** The observations on the tail (lines 151-156). *)
Fixpoint tail_observations (entries : list (string * action_stat))
  : res (list string) :=
  match entries with
  | [] => Ok []
  | (action, stats) :: entries =>
    wag_pct ← percent_value (percent_text (tail_wagging_percentage stats));
    let observation :=
      if (50 <? wag_pct)%float then
        ["During " +:+ action +:+ ", the tail is wagging " +:+ format_0f wag_pct
           +:+ "% of the time (active, engaged behavior)."]
      else if (0 <? wag_pct)%float then
        ["During " +:+ action +:+ ", the tail wags " +:+ format_0f wag_pct
           +:+ "% of the time (occasional engagement)."]
      else [] in
    rest ← tail_observations entries;
    Ok (observation ++ rest)
  end.

(** [float(stats.get(action, {}).get('percentage', '0%').rstrip('%'))] *)
Definition percentage_of (action_statistics : gmap string action_stat)
    (action : string) : res float :=
  percent_value
    (match action_statistics !! action with
     | Some stats => percent_text (percentage stats)
     | None => "0%"
     end).

(** The dict of statistics is walked in the order of [map_to_list]. *)
Definition get_prompt_data (analysis : behavior_summary) : res string :=
  let report : list string := [] in
  let report := report ++ [text.repeat "=" 80] in
  let report := report ++ ["DOG BEHAVIOR ANALYSIS REPORT"] in
  let report := report ++ [text.repeat "=" 80] in
  let report := report ++ [""] in
  let info := summary_video_info analysis in
  let report :=
    report ++ ["Video Duration: " +:+ format_1f (info_duration_seconds info)
                 +:+ " seconds (" +:+ text.str (info_total_frames info) +:+ " frames @ "
                 +:+ text.str (estimated_fps info) +:+ " fps)"] in
  let report := report ++ [""] in
  let report := report ++ ["ACTION SUMMARY:"] in
  let report := report ++ [text.repeat "-" 80] in
  let entries := map_to_list (action_statistics analysis) in
  let report := report ++ mjoin ((fun entry => stat_lines entry.1 entry.2) <$> entries) in
  let report := report ++ [text.nl +:+ text.repeat "=" 80] in
  let report := report ++ ["BEHAVIORAL TIMELINE:"] in
  let report := report ++ [text.repeat "-" 80] in
  let report := report ++ segment_lines 1 (action_timeline analysis) in
  let report := report ++ [text.nl +:+ text.repeat "=" 80] in
  let report := report ++ ["DETAILED OBSERVATIONS:"] in
  let report := report ++ [text.repeat "-" 80] in
  let observations : list string := [] in
  first_segment ← index (action_timeline analysis) 0;
  let observations :=
    observations ++ ["The dog begins with " +:+ seg_action first_segment
                       +:+ " behavior."] in
  tail ← tail_observations entries;
  let observations := observations ++ tail in
  walking_pct ← percentage_of (action_statistics analysis) "walking";
  running_pct ← percentage_of (action_statistics analysis) "running";
  rearing_pct ← percentage_of (action_statistics analysis) "rearing";
  let activity_level := (walking_pct + running_pct)%float in
  let observations :=
    observations ++
    (if (80 <? activity_level)%float then
       ["High activity level: " +:+ format_0f activity_level
          +:+ "% of video spent moving (walking/running)."]
     else if (50 <? activity_level)%float then
       ["Moderate activity level: " +:+ format_0f activity_level
          +:+ "% of video spent moving."]
     else
       ["Low activity level: " +:+ format_0f activity_level
          +:+ "% of video spent moving."]) in
  let observations :=
    observations ++
    (if (0 <? rearing_pct)%float then
       ["The dog exhibits rearing behavior (" +:+ format_0f rearing_pct
          +:+ "% of time), suggesting playfulness or alertness."]
     else []) in
  let report := report ++ ((fun obs => text.nl +:+ "• " +:+ obs) <$> observations) in
  let report := report ++ [text.nl +:+ text.repeat "=" 80] in
  Ok (text.join text.nl report).

End with_formatting.

End analyze_behavior.

(** ** Sample frames

    A plain implementation of the numpy interface (left-to-right sums; the
    arc cosine is the polynomial of Abramowitz and Stegun 4.4.45, good to
    about 1e-4 rad) to run the program on sample frames. *)

Module samples.

Definition fsum (xs : list float) : float := foldl PrimFloat.add 0%float xs.
Definition fmean (xs : list float) : float :=
  (fsum xs / float_of_int (Z.of_nat (length xs)))%float.
Definition fvar (xs : list float) : float :=
  let m := fmean xs in
  fmean ((fun x => ((x - m) * (x - m))%float) <$> xs).
Definition fmin (xs : list float) : float :=
  foldl (fun a x => if (x <? a)%float then x else a) (default 0%float (head xs)) xs.
Definition fmax (xs : list float) : float :=
  foldl (fun a x => if (a <? x)%float then x else a) (default 0%float (head xs)) xs.
Definition fdot (a b : point) : float := (a.1 * b.1 + a.2 * b.2)%float.
Definition fclip (x lo hi : float) : float :=
  if (x <? lo)%float then lo else if (hi <? x)%float then hi else x.
Definition pi : float := 3.141592653589793%float.
Definition acos_pos (x : float) : float :=
  (PrimFloat.sqrt (1 - x)
   * (1.5707288 + x * (-0.2121144 + x * (0.0742610 + x * -0.0187293))))%float.
Definition facos (x : float) : float :=
  if (x <? 0)%float then (pi - acos_pos (- x))%float else acos_pos x.

#[export] Instance numpy_model : Numpy := {|
  np_dot := fdot;
  np_linalg_norm := fun v => PrimFloat.sqrt (fdot v v);
  np_arccos := facos;
  np_degrees := fun x => (x * (180 / pi))%float;
  np_clip := fclip;
  np_mean := fmean;
  np_std := fun xs => PrimFloat.sqrt (fvar xs);
  np_var := fvar;
  np_min := fmin;
  np_max := fmax;
|}.

(** A frame in which the detector found nothing. *)
Definition no_detection : Result :=
  {| orig_shape := (640, 480); keypoints_xy := []; boxes_xywh := [] |}.

(** A dog on four straight legs, 24 keypoints in pixels, box 200 x 150 around
    (320, 240). *)
Definition dog_keypoints : kpts :=
  [ (380, 310); (380, 280); (380, 250);     (* front left: paw, knee, elbow *)
    (260, 310); (260, 280); (260, 250);     (* rear left *)
    (390, 310); (390, 280); (390, 250);     (* front right *)
    (270, 310); (270, 280); (270, 250);     (* rear right *)
    (250, 230); (225, 215);                 (* tail start, tail end *)
    (400, 200); (410, 200); (405, 215); (405, 225);
    (395, 190); (415, 190); (400, 195); (410, 195);
    (370, 225); (385, 235) ]%float.

Definition dog : Result :=
  {| orig_shape := (640, 480);
     keypoints_xy := [dog_keypoints];
     boxes_xywh := [(320, 240, 200, 150)%float] |}.

(** The features of an idle, standing dog whose tail swings with standard
    deviation 12 and 15 reversals in the window. *)
Definition swinging_tail : gmap string pyval :=
  <["avg_velocity" := PFloat 0.01]>
  (<["tail_angle_variance" := PFloat 12.0]>
  (<["tail_oscillation_count" := PInt 15]>
  (<["centroid_vertical_velocity" := PFloat 0]>
  (<["front_paws_vertical_velocity" := PFloat 0]>
  (<["leg_angle_variance" := PFloat 1.0]>
  (<["front_left_leg_angle" := PFloat 170]>
  (<["front_right_leg_angle" := PFloat 170]>
  (<["rear_left_leg_angle" := PFloat 165]>
  (<["rear_right_leg_angle" := PFloat 165]>
  (<["bbox_width" := PFloat 0.3125]>
  (<["bbox_height" := PFloat 0.3125]> ∅))))))))))).

(** The keypoints of [dog] in box coordinates. *)
Definition dog_keypoints_norm : kpts :=
  (fun p : point => ((p.1 - 320) / 200, (p.2 - 240) / 150)%float) <$> dog_keypoints.

(** The same dog with 30 reversals of the tail in the window. *)
Definition wagging_tail : gmap string pyval :=
  <["tail_oscillation_count" := PInt 30]> swinging_tail.

(** The same features with the centroid at the jump threshold and below. *)
Definition at_jump_threshold : gmap string pyval :=
  <["centroid_vertical_velocity" := action_classification.JUMP_VELOCITY_THRESHOLD]>
    swinging_tail.
Definition below_jump_threshold : gmap string pyval :=
  <["centroid_vertical_velocity" := PFloat (-0.016)]> swinging_tail.

(** The state of the first loop of the aggregator after two raw "running"
    frames. *)
Definition two_running : analyze_behavior.loop_state :=
  {| analyze_behavior.extractor := feature_extraction.new 60;
     analyze_behavior.motion_history := ["running"; "running"];
     analyze_behavior.frame_actions := [] |}.

(** Three records of two labels; the frame 2 had no detection. *)
Definition sample_records : list analyze_behavior.frame_data :=
  [analyze_behavior.frame_record 0 "walking" ∅;
   analyze_behavior.frame_record 1 "walking" ∅;
   analyze_behavior.frame_record 3 "sitting" ∅].

End samples.

(** A plain implementation of the formats, to run the report on samples:
    fixed-point text of the exact binary value, rounded half to even, and the
    reading of such a text. *)
Module plain.

(** [n / d] rounded to the nearest integer, ties to even, for [0 < d]. *)
Definition round_half_even (n d : Z) : Z :=
  let q := n / d in
  let r := n mod d in
  if d <? 2 * r then q + 1
  else if (2 * r =? d) && Z.odd q then q + 1
  else q.

Definition fixed_text (digits : nat) (negative : bool) (scaled : Z) : string :=
  let unit := 10 ^ Z.of_nat digits in
  let fraction := pretty (scaled mod unit) in
  (if negative then "-" else "") +:+ pretty (scaled / unit)
  +:+ (match digits with
       | O => ""
       | _ => "." +:+ text.repeat "0" (digits - String.length fraction) +:+ fraction
       end).

Definition format_fixed (digits : nat) (x : float) : string :=
  match FloatOps.Prim2SF x with
  | SpecFloat.S754_nan => "nan"
  | SpecFloat.S754_infinity negative => if negative then "-inf" else "inf"
  | SpecFloat.S754_zero negative => fixed_text digits negative 0
  | SpecFloat.S754_finite negative m e =>
    let n := Z.pos m * 10 ^ Z.of_nat digits in
    fixed_text digits negative
      (if 0 <=? e then n * 2 ^ e else round_half_even n (2 ^ (- e)))
  end.

(** The value and the number of the leading decimal digits of a text, and what
    follows them. *)
Fixpoint leading_digits (s : string) (value : Z) (count : nat) : Z * nat * string :=
  match s with
  | String c rest =>
    let n := Ascii.nat_of_ascii c in
    if (48 <=? n)%nat && (n <=? 57)%nat
    then leading_digits rest (10 * value + Z.of_nat (n - 48)) (S count)
    else (value, count, s)
  | EmptyString => (value, count, s)
  end.

Definition read_unsigned (s : string) : res float :=
  let '(whole, count, rest) := leading_digits s 0 0 in
  match count, rest with
  | O, _ => Raise ValueError
  | _, EmptyString => Ok (float_of_int whole)
  | _, String c fraction =>
    if Ascii.eqb c (Ascii.ascii_of_nat 46) then
      let '(scaled, decimals, rest) := leading_digits fraction whole 0 in
      match rest with
      | EmptyString =>
        Ok (float_of_int scaled / float_of_int (10 ^ Z.of_nat decimals))%float
      | _ => Raise ValueError
      end
    else Raise ValueError
  end.

Definition read_float (s : string) : res float :=
  if String.eqb s "nan" then Ok PrimFloat.nan
  else if String.eqb s "inf" then Ok PrimFloat.infinity
  else if String.eqb s "-inf" then Ok PrimFloat.neg_infinity
  else match s with
       | String c rest =>
         if Ascii.eqb c (Ascii.ascii_of_nat 45)
         then x ← read_unsigned rest; Ok (- x)%float
         else read_unsigned s
       | EmptyString => Raise ValueError
       end.

#[export] Instance formatting : Formatting := {|
  format_1f := format_fixed 1;
  format_4f := format_fixed 4;
  format_0f := format_fixed 0;
  py_float := read_float;
|}.

End plain.

(** * Vocabulary of the properties *)

Import feature_extraction analyze_behavior action_classification.

(** [label.endswith(suffix)] *)
Definition endswith (label suffix : string) : bool :=
  let n := String.length label in
  let m := String.length suffix in
  (m <=? n)%nat && String.eqb (String.substring (n - m) m label) suffix.

(** The static entries and the paw keypoints that [recognize_action] reads
    without a default. *)
Definition classifiable (features : gmap string pyval) (keypoints_norm : kpts) : Prop :=
  Forall (fun key => is_Some (features !! key))
    ["front_left_leg_angle"; "front_right_leg_angle"; "rear_left_leg_angle";
     "rear_right_leg_angle"; "bbox_height"; "bbox_width"]
  /\ (10 <= length keypoints_norm)%nat.

(** The classification reaches the label construction with [motion == "idle"]
    and a pose other than "unknown". *)
Definition idle_known_pose (l : locals) : Prop :=
  lt (centroid_vy l) JUMP_VELOCITY_THRESHOLD = false
  /\ lt (front_vy l) REAR_FRONT_VELOCITY_THRESHOLD || (0.3 <? paw_height_diff l)%float
     = false
  /\ motion l = "idle"
  /\ pose l <> "unknown".

Definition no_detection_in (result : Result) : Prop := keypoints_xy result = [].

Definition empty_summary : behavior_summary :=
  {| summary_video_info :=
       {| info_total_frames := 0; info_duration_seconds := 0; estimated_fps := 30 |};
     action_statistics := ∅;
     action_timeline := [];
     frame_by_frame_data := [] |}.

(** The original indices, from [idx] on, of the frames with a detection. *)
Fixpoint detected_indices (idx : Z) (results : list Result) : list Z :=
  match results with
  | [] => []
  | result :: results =>
    match keypoints_xy result with
    | [] => detected_indices (idx + 1) results
    | _ => idx :: detected_indices (idx + 1) results
    end
  end.

Definition finish (st : segment_state) (n : Z) : list segment :=
  match current_action st with
  | Some a => action_segments st ++ [close_segment a (segment_start st) n]
  | None => action_segments st
  end.

(** The segments from position [s] of a label stream that starts with [n]
    frames of the open segment of label [a], at position [i = s + n]: the
    second loop and the closing of the last segment, as a function. *)
Fixpoint runs_from (a : string) (s i : Z) (labels : list string) : list segment :=
  match labels with
  | [] => [close_segment a s i]
  | b :: labels =>
    if decide (b = a) then runs_from a s (i + 1) labels
    else close_segment a s i :: runs_from b i (i + 1) labels
  end.

(** [rle start labels segs]: [segs] is the run-length encoding of [labels],
    the first label being at position [start]. *)
Inductive rle : Z -> list string -> list segment -> Prop :=
| rle_nil (start : Z) : rle start [] []
| rle_run (start n : Z) (a : string) (labels : list string)
    (seg : segment) (segs : list segment) :
    1 <= n ->
    head labels <> Some a ->
    seg_action seg = a ->
    start_frame seg = start ->
    end_frame seg = start + n - 1 ->
    duration_frames seg = n ->
    duration_seconds seg = (float_of_int n / 30)%float ->
    rle (start + n) labels segs ->
    rle start (replicate (Z.to_nat n) a ++ labels) (seg :: segs).

(** The labels that a list of segments stands for. *)
Definition expand (segs : list segment) : list string :=
  flat_map (fun seg => replicate (Z.to_nat (duration_frames seg)) (seg_action seg)) segs.

Definition total_frames_of (segs : list segment) : Z :=
  foldr Z.add 0 (duration_frames <$> segs).

(** ** Vocabulary of the further properties *)

(** The last [n] elements of a list. *)
Definition keep_last {A} (n : nat) (l : list A) : list A := drop (length l - n) l.

(** What [_process_result] yields for a frame with a detection. *)
Definition normalized (result : Result) : option (kpts * bbox) :=
  match _process_result result with
  | Ok (Some entry) => Some entry
  | _ => None
  end.

(** A frame of the detector contract: no detection, or [n] keypoints and a
    box for the first animal. *)
Definition well_formed_frame (n : nat) (result : Result) : Prop :=
  keypoints_xy result = []
  \/ exists row others,
       keypoints_xy result = row :: others
       /\ length row = n
       /\ boxes_xywh result <> [].

Definition static_keys : list string :=
  ["front_left_leg_angle"; "front_right_leg_angle"; "rear_left_leg_angle";
   "rear_right_leg_angle"; "tail_angle"; "paw_distance_front";
   "paw_distance_rear"; "body_length"; "head_width"; "bbox_width"; "bbox_height"].

Definition motion_keys : list string :=
  ["avg_velocity"; "tail_angle_variance"; "tail_oscillation_count";
   "centroid_vertical_velocity"; "front_paws_vertical_velocity";
   "rear_paws_vertical_velocity"; "bbox_center_variance"; "leg_angle_variance";
   "leg_angle_change_rate"].

Definition default_motion_keys : list string :=
  ["avg_velocity"; "tail_angle_variance"; "centroid_vertical_velocity";
   "front_paws_vertical_velocity"].

(** The labels of [recognize_action] when both inputs are present. *)
Definition action_labels : list string :=
  ["jumping"; "rearing"; "walking"; "running"; "idle";
   "sitting"; "standing"; "standing_on_two_legs"; "lying";
   "sitting_wagging"; "standing_wagging"; "standing_on_two_legs_wagging";
   "lying_wagging"].

(** The keys that [recognize_action] reads with [features[key]]. *)
Definition required_keys : list string :=
  ["front_left_leg_angle"; "front_right_leg_angle"; "rear_left_leg_angle";
   "rear_right_leg_angle"; "bbox_height"; "bbox_width"].

(** The division [bbox_h / (bbox_w + 1e-6)] of line 33 is one of two floats
    with a divisor that is not zero, where the mapping has both entries.  It
    holds of the mappings of the extractor on boxes of non-negative width; it
    leaves out the mappings written by hand on which Python's own division
    raises: ZeroDivisionError for the float [-1e-6] as width, OverflowError
    for an int beyond the range of the floats. *)
Definition box_ratio_defined (features : gmap string pyval) : bool :=
  match features !! "bbox_height", features !! "bbox_width" with
  | Some (PFloat _), Some (PFloat w) => negb (w + 1e-6 =? 0)%float
  | Some _, Some _ => false
  | _, _ => true
  end.

(** A feature mapping from its entries: velocities, tail signals, leg
    variance, the four leg angles (front left, front right, rear left, rear
    right) and the box. *)
Definition features_of (avg_velocity centroid_vy front_vy tail_std : float)
    (oscillations : Z) (leg_variance fl fr rl rr width height : float)
  : gmap string pyval :=
  <["avg_velocity" := PFloat avg_velocity]>
  (<["centroid_vertical_velocity" := PFloat centroid_vy]>
  (<["front_paws_vertical_velocity" := PFloat front_vy]>
  (<["tail_angle_variance" := PFloat tail_std]>
  (<["tail_oscillation_count" := PInt oscillations]>
  (<["leg_angle_variance" := PFloat leg_variance]>
  (<["front_left_leg_angle" := PFloat fl]>
  (<["front_right_leg_angle" := PFloat fr]>
  (<["rear_left_leg_angle" := PFloat rl]>
  (<["rear_right_leg_angle" := PFloat rr]>
  (<["bbox_width" := PFloat width]>
  (<["bbox_height" := PFloat height]> ∅))))))))))).

(** The records of one label, and those of them with a wagging tail. *)
Definition records_of (frame_actions : list frame_data) (action_type : string)
  : list frame_data :=
  filter (fun f => action f = action_type) frame_actions.

Definition wagging_records_of (frame_actions : list frame_data) (action_type : string)
  : list frame_data :=
  filter (fun f => analyze_behavior.is_tail_wagging f = true)
    (records_of frame_actions action_type).

(** The running buffer holds only "running", five times at most. *)
Definition running_buffer (motion_history : list string) : Prop :=
  exists n : nat, (n <= 5)%nat /\ motion_history = replicate n "running".

(** [float()] reads the percent texts of the statistics and the default
    "0%". *)
Definition percent_texts_parse `{Formatting} (analysis : behavior_summary) : Prop :=
  Forall (fun entry : string * action_stat =>
            (exists v, percent_value (percent_text (percentage entry.2)) = Ok v)
            /\ (exists v, percent_value
                            (percent_text (tail_wagging_percentage entry.2)) = Ok v))
    (map_to_list (action_statistics analysis))
  /\ exists v, percent_value "0%" = Ok v.

(** A summary of three standing frames. *)
Definition standing_summary : behavior_summary :=
  {| summary_video_info :=
       {| info_total_frames := 3; info_duration_seconds := 0.1; estimated_fps := 30 |};
     action_statistics :=
       {[ "standing" :=
            {| total_frames := 3; percentage := 100; avg_velocity := 0.0125;
               velocity_range := (0, 0.025)%float; tail_wagging_frames := 1;
               tail_wagging_percentage := (1 / 3 * 100)%float |} ]};
     action_timeline := [close_segment "standing" 0 3];
     frame_by_frame_data :=
       [frame_record 1 "standing" ∅; frame_record 2 "standing" ∅;
        frame_record 4 "standing" samples.wagging_tail] |}.

(** A detection with five keypoints only, and the sample dog with a second
    animal behind it. *)
Definition short_detection : Result :=
  {| orig_shape := (640, 480);
     keypoints_xy := [take 5 samples.dog_keypoints];
     boxes_xywh := [(320, 240, 200, 150)%float] |}.

Definition two_animals : Result :=
  {| orig_shape := (640, 480);
     keypoints_xy := [samples.dog_keypoints; take 5 samples.dog_keypoints];
     boxes_xywh := [(320, 240, 200, 150)%float; (100, 100, 50, 50)%float] |}.

(** The first loop before the first frame. *)
Definition initial_state : loop_state :=
  {| extractor := new 60; motion_history := []; frame_actions := [] |}.

(** Whether a computation returns. *)
Definition is_Ok {A} (x : res A) : bool :=
  match x with Ok _ => true | Raise _ => false end.

(** * Properties *)

(** ** The program on sample inputs *)

Example count_peaks_sample :
  _count_peaks [1; 3; 2; 2; 1; 4]%float = 2.
Proof. reflexivity. Qed.

Example count_peaks_short : _count_peaks [1; 3]%float = 0.
Proof. reflexivity. Qed.

Example recognize_action_absent :
  recognize_action None (Some samples.dog_keypoints_norm) = Ok "unknown"
  /\ recognize_action (Some samples.swinging_tail) None = Ok "unknown".
Proof. split; reflexivity. Qed.

Example recognize_action_samples :
  recognize_action (Some samples.swinging_tail) (Some samples.dog_keypoints_norm)
  = Ok "standing"
  /\ recognize_action (Some samples.wagging_tail) (Some samples.dog_keypoints_norm)
     = Ok "standing_wagging"
  /\ recognize_action (Some samples.below_jump_threshold)
       (Some samples.dog_keypoints_norm) = Ok "jumping"
  /\ recognize_action (Some ∅) (Some samples.dog_keypoints_norm)
     = Raise (KeyError "front_left_leg_angle").
Proof. split_and!; vm_compute; reflexivity. Qed.

(** Ten "sitting" records: one segment over the positions 0 to 9 that lasts
    10/30 s. *)
Example segments_of_ten_sitting :
  segments_of ((fun i => frame_record i "sitting" ∅) <$> seqZ 0 10)
  = [{| seg_action := "sitting"; start_frame := 0; end_frame := 9;
        duration_frames := 10; duration_seconds := (10 / 30)%float |}].
Proof. vm_compute. reflexivity. Qed.


(** ** The error monad *)

Lemma bind_Ok {A B} (m : res A) (f : A -> res B) (b : B) :
  m ≫= f = Ok b -> exists a, m = Ok a /\ f a = Ok b.
Proof. destruct m as [a|e]; [eauto | discriminate]. Qed.

Ltac inv_bind H :=
  let a := fresh "a" in
  let Ha := fresh "H" a in
  apply bind_Ok in H; destruct H as (a & Ha & H).

Lemma index_Ok {A} (l : list A) (i : nat) (x : A) :
  index l i = Ok x -> l !! i = Some x.
Proof. unfold index. destruct (l !! i); [by intros [= ->]|done]. Qed.

(** ** The feature extractor *)

Section extractor.
Context `{Numpy}.

Lemma process_result_no_detection (result : Result) :
  keypoints_xy result = [] -> _process_result result = Ok None.
Proof.
  intros Hk. unfold _process_result. rewrite Hk. by destruct (orig_shape result).
Qed.

Lemma extract_no_detection (result : Result) :
  keypoints_xy result = [] -> _extract_semantic_features result = Ok None.
Proof.
  intros Hk. unfold _extract_semantic_features.
  by rewrite (process_result_no_detection _ Hk).
Qed.

Lemma update_no_detection (self : FeatureExtractor) (result : Result) :
  keypoints_xy result = [] -> update self result = Ok (None, self).
Proof. intros Hk. unfold update. by rewrite (extract_no_detection _ Hk). Qed.

(** C8: on a frame without detection [update] returns the pair of [None]s
    and the extractor, its buffer included, is the one it was; a call
    after which the buffer differs was made on a frame with a detection and
    returned features. *)
Theorem update_no_detection_keeps_buffer (self : FeatureExtractor) (result : Result) :
  (keypoints_xy result = [] -> update self result = Ok (None, self))
  /\ (forall r self',
        update self result = Ok (r, self') ->
        history_buffer self' <> history_buffer self ->
        keypoints_xy result <> [] /\ is_Some r).
Proof.
  pose proof (update_no_detection self result) as Hnone.
  split; [exact Hnone|].
  intros r self' Hu Hbuf.
  destruct (keypoints_xy result) as [|k ks] eqn:Hk.
  - rewrite Hnone in Hu by done. by injection Hu as <- <-.
  - split; [done|]. unfold update in Hu.
    destruct (_extract_semantic_features result) as [[[f kn]|]|e]; simpl in Hu.
    + destruct (_process_result result) as [[[? b]|]|e]; simpl in Hu; try done.
      destruct (2 <=? _).
      * destruct (_compute_motion_features _ _); simpl in Hu; [|done].
        injection Hu as <- _. eauto.
      * injection Hu as <- _. eauto.
    + by injection Hu as <- <-.
    + done.
Qed.

Lemma extract_static_keys (result : Result) (f : gmap string pyval) (k : kpts) :
  _extract_semantic_features result = Ok (Some (f, k)) ->
  forall key,
    key ∉ ["front_left_leg_angle"; "front_right_leg_angle"; "rear_left_leg_angle";
           "rear_right_leg_angle"; "tail_angle"; "paw_distance_front";
           "paw_distance_rear"; "body_length"; "head_width"; "bbox_width";
           "bbox_height"] ->
    f !! key = None.
Proof.
  unfold _extract_semantic_features. intros Hf key Hkey.
  inv_bind Hf. destruct a as [[kn [[[cx cy] w] h]]|]; [|done].
  do 9 inv_bind Hf. injection Hf as <- <-.
  rewrite !not_elem_of_cons in Hkey. destruct_and!.
  rewrite !lookup_insert_ne by congruence. apply lookup_empty.
Qed.

(** The zero-filled branch of [update]: when the window holds fewer than two
    frames after the call, four motion keys are 0.0 and the other five motion
    keys of [_compute_motion_features] are not in the mapping. *)
Lemma update_short_window (self self' : FeatureExtractor) (result : Result)
    (f : gmap string pyval) (k : kpts) :
  update self result = Ok (Some (f, k), self') ->
  (length (history_buffer self') < 2)%nat ->
  Forall (fun key => f !! key = Some (PFloat 0))
    ["avg_velocity"; "tail_angle_variance"; "centroid_vertical_velocity";
     "front_paws_vertical_velocity"]
  /\ Forall (fun key => f !! key = None)
       ["tail_oscillation_count"; "rear_paws_vertical_velocity";
        "leg_angle_variance"; "leg_angle_change_rate"; "bbox_center_variance"].
Proof.
  unfold update. intros Hu Hlen.
  inv_bind Hu. destruct a as [[f0 kn]|]; [|done].
  inv_bind Hu. destruct a as [[? b]|]; [|done].
  pose proof (extract_static_keys _ _ _ Ha) as Hstatic.
  match type of Hu with context [2 <=? ?n] => destruct (Z.leb_spec 2 n) as [Hge|Hlt] end.
  - inv_bind Hu. injection Hu as _ _ <-. simpl in Hlen. lia.
  - injection Hu as <- _ _.
    split; repeat constructor;
      repeat (first [rewrite lookup_insert_eq; reflexivity
                    | rewrite lookup_insert_ne by discriminate]);
      apply Hstatic; rewrite !not_elem_of_cons;
      repeat split; first [discriminate | apply not_elem_of_nil].
Qed.

Lemma update_first_dog :
  exists f k b, update (new 60) samples.dog
              = Ok (Some (f, k), {| window_size := 60; history_buffer := [b] |}).
Proof.
  unfold update.
  destruct (_extract_semantic_features samples.dog) as [[[f k]|]|e] eqn:He;
    [|vm_compute in He; discriminate..].
  simpl. eexists _, k, _. reflexivity.
Qed.

(** C2, at the first frame of a stream: after the first valid detection the
    window holds one frame; [update] returns a mapping in which four motion
    keys are 0.0 and the keys of the tail oscillation count, the rear paw
    velocity, the leg-angle variance, the leg-angle change rate and the
    bbox-center variance are missing. *)
Theorem first_frame_motion_keys_missing :
  exists f k self',
    update (new 60) samples.dog = Ok (Some (f, k), self')
    /\ length (history_buffer self') = 1%nat
    /\ Forall (fun key => f !! key = Some (PFloat 0))
         ["avg_velocity"; "tail_angle_variance"; "centroid_vertical_velocity";
          "front_paws_vertical_velocity"]
    /\ Forall (fun key => f !! key = None)
         ["tail_oscillation_count"; "rear_paws_vertical_velocity";
          "leg_angle_variance"; "leg_angle_change_rate"; "bbox_center_variance"].
Proof.
  destruct update_first_dog as (f & k & b & Hu).
  eexists f, k, _. split; [exact Hu|]. split; [reflexivity|].
  apply (update_short_window _ _ _ _ _ Hu). simpl. lia.
Qed.

End extractor.

(** ** The classifier *)

Lemma get_Some (d : gmap string pyval) (k : string) (v dflt : pyval) :
  d !! k = Some v -> get d k dflt = v.
Proof. unfold get. by intros ->. Qed.

Lemma classifiable_read_locals (features : gmap string pyval) (keypoints_norm : kpts) :
  classifiable features keypoints_norm ->
  exists l, read_locals features keypoints_norm = Ok l
    /\ centroid_vy l = get features "centroid_vertical_velocity" (PInt 0)
    /\ tail_variance l = get features "tail_angle_variance" (PInt 0)
    /\ tail_oscillations l = get features "tail_oscillation_count" (PInt 0).
Proof.
  intros [Hkeys Hlen].
  rewrite !Forall_cons in Hkeys.
  destruct Hkeys as ([fl Hfl] & [fr Hfr] & [rl Hrl] & [rr Hrr] & [bh Hbh] & [bw Hbw] & _).
  assert (Hidx : forall i, (i < 10)%nat -> exists p, keypoints_norm !! i = Some p).
  { intros i Hi. apply lookup_lt_is_Some. lia. }
  destruct (Hidx 0%nat) as [k0 Hk0]; [lia|].
  destruct (Hidx 6%nat) as [k6 Hk6]; [lia|].
  destruct (Hidx 3%nat) as [k3 Hk3]; [lia|].
  destruct (Hidx 9%nat) as [k9 Hk9]; [lia|].
  unfold read_locals, getitem, index. unfold kpts, point in *.
  rewrite Hfl, Hfr, Hrl, Hrr, Hbh, Hbw. simpl.
  rewrite Hk0. simpl. rewrite Hk6. simpl. rewrite Hk3. simpl. rewrite Hk9. simpl.
  eexists. split; [reflexivity|]. simpl. done.
Qed.

Lemma motion_cases (l : locals) :
  motion l = "idle" \/ motion l = "walking" \/ motion l = "running".
Proof. unfold motion. repeat case_match; auto. Qed.

Lemma pose_cases (l : locals) :
  pose l ∈ ["sitting"; "standing"; "standing_on_two_legs"; "lying"; "unknown"].
Proof. unfold pose. repeat case_match; set_solver. Qed.

Lemma decide_action_jumping (l : locals) :
  decide_action l = "jumping" <-> lt (centroid_vy l) JUMP_VELOCITY_THRESHOLD = true.
Proof.
  unfold decide_action.
  destruct (lt (centroid_vy l) JUMP_VELOCITY_THRESHOLD); [done|].
  split; [|done]. intros Hj.
  destruct (_ || _); [done|].
  pose proof (motion_cases l) as Hm. pose proof (pose_cases l) as Hp.
  rewrite !elem_of_cons in Hp.
  destruct (negb _); [destruct Hm as [Hm|[Hm|Hm]]; rewrite Hm in Hj; done|].
  destruct (String.eqb (pose l) "unknown"); [done|].
  destruct (is_tail_wagging l);
    destruct Hp as [Hp|[Hp|[Hp|[Hp|[Hp|Hp]]]]]; try (rewrite Hp in Hj; done);
    by apply elem_of_nil in Hp.
Qed.

Lemma jump_threshold_not_below :
  lt JUMP_VELOCITY_THRESHOLD JUMP_VELOCITY_THRESHOLD = false.
Proof. vm_compute. reflexivity. Qed.

(** C6: with the static entries present, a centroid vertical velocity equal to
    the jump threshold gives a label other than "jumping", and one below the
    threshold gives "jumping" whatever the other entries are. *)
Theorem jump_threshold_strict (features : gmap string pyval) (keypoints_norm : kpts) :
  classifiable features keypoints_norm ->
  (features !! "centroid_vertical_velocity" = Some JUMP_VELOCITY_THRESHOLD ->
   exists label,
     recognize_action (Some features) (Some keypoints_norm) = Ok label
     /\ label <> "jumping")
  /\ (lt (get features "centroid_vertical_velocity" (PInt 0)) JUMP_VELOCITY_THRESHOLD
      = true ->
      recognize_action (Some features) (Some keypoints_norm) = Ok "jumping").
Proof.
  intros Hc. destruct (classifiable_read_locals _ _ Hc) as (l & Hl & Hcv & _).
  unfold recognize_action. rewrite Hl. simpl. split.
  - intros Heq. eexists. split; [reflexivity|].
    rewrite decide_action_jumping, Hcv, (get_Some _ _ _ _ Heq).
    rewrite jump_threshold_not_below. done.
  - intros Hlt. f_equal. apply decide_action_jumping. by rewrite Hcv.
Qed.

Lemma decide_action_idle_known_pose (l : locals) :
  idle_known_pose l ->
  decide_action l = if is_tail_wagging l then pose l +:+ "_wagging" else pose l.
Proof.
  intros (Hj & Hr & Hm & Hp). unfold decide_action.
  rewrite Hj, Hr, Hm. simpl.
  destruct (String.eqb_spec (pose l) "unknown"); done.
Qed.

Lemma pose_no_suffix (l : locals) : endswith (pose l) "_wagging" = false.
Proof.
  pose proof (pose_cases l) as Hp. rewrite !elem_of_cons in Hp.
  destruct Hp as [Hp|[Hp|[Hp|[Hp|[Hp|Hp]]]]]; try (rewrite Hp; reflexivity).
  by apply elem_of_nil in Hp.
Qed.

Lemma pose_wagging_suffix (l : locals) :
  endswith (pose l +:+ "_wagging") "_wagging" = true.
Proof.
  pose proof (pose_cases l) as Hp. rewrite !elem_of_cons in Hp.
  destruct Hp as [Hp|[Hp|[Hp|[Hp|[Hp|Hp]]]]]; try (rewrite Hp; reflexivity).
  by apply elem_of_nil in Hp.
Qed.

Lemma motion_no_suffix (l : locals) : endswith (motion l) "_wagging" = false.
Proof. destruct (motion_cases l) as [Hm|[Hm|Hm]]; rewrite Hm; reflexivity. Qed.

Lemma decide_action_suffix (l : locals) :
  endswith (decide_action l) "_wagging" = true -> is_tail_wagging l = true.
Proof.
  unfold decide_action.
  destruct (lt (centroid_vy l) _); [done|].
  destruct (_ || _); [done|].
  destruct (negb _); [by rewrite motion_no_suffix|].
  destruct (String.eqb (pose l) "unknown"); [done|].
  destruct (is_tail_wagging l); [done|]. by rewrite pose_no_suffix.
Qed.

(** C7: when the classification reaches the label construction with motion
    idle and a known pose, the label is the pose followed by "_wagging" when
    the tail-angle standard deviation is above 9.0 and the oscillation count
    is above 25, and the pose alone otherwise; it ends in "_wagging" exactly
    when both hold.  No label of the classifier ends in "_wagging" unless both
    hold, so zero oscillations, or a standard deviation that is not above the
    threshold, never give the suffix. *)
Theorem wagging_suffix_needs_both (features : gmap string pyval) (keypoints_norm : kpts)
    (l : locals) (label : string) :
  read_locals features keypoints_norm = Ok l ->
  recognize_action (Some features) (Some keypoints_norm) = Ok label ->
  let variance_high :=
    gt (get features "tail_angle_variance" (PInt 0)) TAIL_VARIANCE_THRESHOLD in
  let oscillations_high :=
    gt (get features "tail_oscillation_count" (PInt 0)) TAIL_OSCILLATION_THRESHOLD in
  (idle_known_pose l ->
   label = (if variance_high && oscillations_high
            then pose l +:+ "_wagging" else pose l)
   /\ (endswith label "_wagging" = true
       <-> variance_high = true /\ oscillations_high = true))
  /\ (endswith label "_wagging" = true ->
      variance_high = true /\ oscillations_high = true)
  /\ (get features "tail_oscillation_count" (PInt 0) = PInt 0 ->
      endswith label "_wagging" = false)
  /\ (variance_high = false -> endswith label "_wagging" = false).
Proof.
  intros Hl Hrec variance_high oscillations_high.
  unfold recognize_action in Hrec. rewrite Hl in Hrec. injection Hrec as <-.
  assert (Hw : is_tail_wagging l = variance_high && oscillations_high).
  { unfold read_locals in Hl. repeat inv_bind Hl. by injection Hl as <-. }
  assert (Hsuf : endswith (decide_action l) "_wagging" = true ->
                 variance_high = true /\ oscillations_high = true).
  { intros Hs. apply andb_true_iff. rewrite <- Hw. by apply decide_action_suffix. }
  split; [|split; [exact Hsuf|split]].
  - intros Hidle. rewrite (decide_action_idle_known_pose _ Hidle), Hw.
    split; [done|].
    destruct (variance_high && oscillations_high) eqn:Hboth.
    + rewrite pose_wagging_suffix. by apply andb_true_iff in Hboth.
    + rewrite pose_no_suffix. split; [done|].
      intros [Hv Ho]. by rewrite Hv, Ho in Hboth.
  - intros Hzero. destruct (endswith _ _) eqn:Hs; [|done].
    destruct (Hsuf eq_refl) as [_ Ho]. unfold oscillations_high in Ho.
    rewrite Hzero in Ho. done.
  - intros Hlow. destruct (endswith _ _) eqn:Hs; [|done].
    destruct (Hsuf eq_refl) as [Hv _]. congruence.
Qed.

(** ** The wagging flag of the per-frame record *)

Lemma frame_record_is_tail_wagging (idx : Z) (action : string)
    (features : gmap string pyval) :
  analyze_behavior.is_tail_wagging (analyze_behavior.frame_record idx action features)
  = gt (get features "tail_angle_variance" (PInt 0)) (PFloat 9.0)
    && gt (get features "tail_oscillation_count" (PInt 0)) (PInt 10).
Proof. reflexivity. Qed.

Lemma read_locals_is_tail_wagging (features : gmap string pyval) (keypoints_norm : kpts)
    (l : locals) :
  read_locals features keypoints_norm = Ok l ->
  is_tail_wagging l
  = gt (get features "tail_angle_variance" (PInt 0)) (PFloat 9.0)
    && gt (get features "tail_oscillation_count" (PInt 0)) (PInt 25).
Proof. unfold read_locals. intros Hl. repeat inv_bind Hl. by injection Hl as <-. Qed.

(** C9: the per-frame record tests the oscillation count against 10 and the
    classifier against 25.  The features [swinging_tail] (standard deviation
    12.0, 15 oscillations, idle, standing) get [is_tail_wagging = true] in the
    record while the classifier labels them "standing", without the suffix. *)
Theorem record_and_label_disagree_on_wagging :
  exists (features : gmap string pyval) (keypoints_norm : kpts) (l : locals) (n : Z),
    read_locals features keypoints_norm = Ok l
    /\ idle_known_pose l
    /\ gt (get features "tail_angle_variance" (PInt 0)) (PFloat 9.0) = true
    /\ features !! "tail_oscillation_count" = Some (PInt n) /\ 10 < n <= 25
    /\ (forall idx action,
          analyze_behavior.is_tail_wagging
            (analyze_behavior.frame_record idx action features) = true)
    /\ is_tail_wagging l = false
    /\ recognize_action (Some features) (Some keypoints_norm) = Ok "standing"
    /\ endswith "standing" "_wagging" = false.
Proof.
  exists samples.swinging_tail, samples.dog_keypoints_norm.
  destruct (read_locals samples.swinging_tail samples.dog_keypoints_norm)
    as [l|e] eqn:Hl; [|vm_compute in Hl; discriminate].
  exists l, 15.
  split; [reflexivity|].
  pose proof (read_locals_is_tail_wagging _ _ _ Hl) as Hw.
  vm_compute in Hl. injection Hl as <-.
  split; [|split; [|split; [|split; [|split; [|split; [|split]]]]]].
  - repeat split; try (vm_compute; reflexivity). vm_compute. discriminate.
  - vm_compute. reflexivity.
  - vm_compute. reflexivity.
  - lia.
  - intros idx action. rewrite frame_record_is_tail_wagging. vm_compute. reflexivity.
  - rewrite Hw. vm_compute. reflexivity.
  - vm_compute. reflexivity.
  - reflexivity.
Qed.

(** ** The aggregator: first loop *)

Section aggregator.
Context `{Numpy}.

Lemma loop_body_no_detection (st : loop_state) (idx : Z) (result : Result) :
  no_detection_in result -> loop_body st idx result = Ok st.
Proof.
  intros Hk. unfold loop_body.
  rewrite (update_no_detection _ _ Hk). by destruct st.
Qed.

Lemma frame_loop_skip (gap rest : list Result) (st : loop_state) (idx : Z) :
  Forall no_detection_in gap ->
  frame_loop st idx (gap ++ rest) = frame_loop st (idx + Z.of_nat (length gap)) rest.
Proof.
  intros Hgap. revert idx. induction Hgap as [|r gap Hr _ IH]; intros idx; simpl.
  - by rewrite Z.add_0_r.
  - rewrite (loop_body_no_detection _ _ _ Hr). simpl. rewrite IH. f_equal. lia.
Qed.

Lemma frame_loop_no_detection (results : list Result) (st : loop_state) (idx : Z) :
  Forall no_detection_in results -> frame_loop st idx results = Ok st.
Proof.
  intros Hn. rewrite <- (app_nil_r results). by rewrite frame_loop_skip.
Qed.

(** The first loop stores the debounced labels of the processed frames. *)
Lemma frame_loop_raw_labels (results : list Result) (st : loop_state) (idx : Z) :
  match raw_labels (extractor st) results with
  | Ok raw =>
    exists st',
      frame_loop st idx results = Ok st'
      /\ action <$> frame_actions st'
         = (action <$> frame_actions st) ++ debounce (motion_history st) (omap id raw)
      /\ motion_history st' = history_after (motion_history st) (omap id raw)
      /\ length (frame_actions st')
         = (length (frame_actions st) + length (omap id raw))%nat
  | Raise e => frame_loop st idx results = Raise e
  end.
Proof.
  revert st idx. induction results as [|result results IH]; intros st idx; simpl.
  - exists st. by rewrite !app_nil_r, Nat.add_0_r.
  - unfold loop_body.
    destruct (update (extractor st) result) as [[[[f k]|] ext]|e]; simpl; [| |done].
    + destruct (read_locals f k) as [l|e]; simpl; [|done].
      destruct (temporal_filter (decide_action l) (motion_history st))
        as [a' mh] eqn:Htf.
      set (st1 := {| extractor := ext; motion_history := mh;
                     frame_actions := frame_actions st ++ [frame_record idx a' f] |}).
      specialize (IH st1 (idx + 1)). simpl in IH.
      destruct (raw_labels ext results) as [raw|e]; simpl; [|done].
      destruct IH as (st' & Hloop & Hact & Hmh & Hlen).
      exists st'. rewrite Htf. simpl.
      rewrite Hloop, Hact, Hmh, Hlen. subst st1. simpl.
      rewrite fmap_app, length_app. simpl. rewrite <- app_assoc. simpl.
      split_and!; try done. unfold omap. lia.
    + set (st1 := {| extractor := ext; motion_history := motion_history st;
                     frame_actions := frame_actions st |}).
      specialize (IH st1 (idx + 1)). simpl in IH.
      destruct (raw_labels ext results) as [raw|e]; simpl; [|done].
      exact IH.
Qed.

(** ** Statistics *)

Lemma stat_of_total (frame_actions : list frame_data) (action_type : string) :
  action_type ∈ action <$> frame_actions ->
  exists s, stat_of frame_actions action_type = Ok s.
Proof.
  intros Hin. apply list_elem_of_fmap in Hin as (f & -> & Hf).
  unfold stat_of, truediv.
  assert (Hfa : frame_actions <> []) by (intros ->; by apply elem_of_nil in Hf).
  assert (Hflt : filter (fun f' => action f' = action f) frame_actions <> []).
  { intros Hnil. assert (Hf' : f ∈ filter (fun f' => action f' = action f) frame_actions)
      by (apply list_elem_of_filter; done).
    rewrite Hnil in Hf'. by apply elem_of_nil in Hf'. }
  destruct (Z.eqb_spec (Z.of_nat (length frame_actions)) 0) as [Hz|_].
  { destruct frame_actions; [done|simpl in Hz; lia]. }
  simpl.
  destruct (Z.eqb_spec
              (Z.of_nat (length (filter (fun f' => action f' = action f) frame_actions))) 0)
    as [Hz|_].
  { destruct (filter _ frame_actions); [done|simpl in Hz; lia]. }
  simpl. eauto.
Qed.

Lemma stats_loop_total (frame_actions : list frame_data) (action_types : list string)
    (action_stats : gmap string action_stat) :
  Forall (fun t => t ∈ action <$> frame_actions) action_types ->
  exists m, stats_loop action_stats frame_actions action_types = Ok m.
Proof.
  intros Hall. revert action_stats.
  induction Hall as [|t ts Ht _ IH]; intros action_stats; simpl; [eauto|].
  destruct (stat_of_total _ _ Ht) as [s ->]. simpl. apply IH.
Qed.

Lemma stats_of_total (frame_actions : list frame_data) :
  exists m, stats_of frame_actions = Ok m.
Proof.
  apply stats_loop_total. apply Forall_forall. intros t Ht.
  apply elem_of_elements in Ht. by apply elem_of_list_to_set in Ht.
Qed.

Lemma stats_of_nil : stats_of [] = Ok ∅.
Proof. unfold stats_of. simpl. by rewrite elements_empty. Qed.

(** [analyze_behavior] in terms of its first loop. *)
Lemma analyze_behavior_frame_loop (results : list Result) (st : loop_state) :
  frame_loop {| extractor := new 60; motion_history := []; frame_actions := [] |}
    0 results = Ok st ->
  exists summary,
    analyze_behavior results = Ok summary
    /\ frame_by_frame_data summary = frame_actions st
    /\ action_timeline summary = segments_of (frame_actions st)
    /\ stats_of (frame_actions st) = Ok (action_statistics summary)
    /\ info_total_frames (summary_video_info summary)
       = Z.of_nat (length (frame_actions st)).
Proof.
  intros Hloop. unfold analyze_behavior. rewrite Hloop. simpl.
  destruct (stats_of_total (frame_actions st)) as [m Hm]. rewrite Hm. simpl.
  eexists. split; [reflexivity|]. simpl. done.
Qed.

End aggregator.

(** ** The debounce of "running" *)

Section debounce.
Context `{Numpy}.

Lemma temporal_filter_other (a : string) (mh : list string) :
  a <> "running" -> temporal_filter a mh = (a, []).
Proof.
  intros Ha. unfold temporal_filter.
  by destruct (String.eqb_spec a "running").
Qed.

Lemma temporal_filter_running (n : nat) :
  (n <= 5)%nat ->
  temporal_filter "running" (replicate n "running")
  = (if (n <? 4)%nat then "walking" else "running",
     replicate (Nat.min 5 (S n)) "running").
Proof.
  intros Hn. do 6 (destruct n as [|n]; [reflexivity|]). lia.
Qed.




(** The scenario of two runs of five "running" frames around a "walking"
    frame. *)
Example debounce_two_runs :
  debounce []
    (replicate 5 "running" ++ ["walking"] ++ replicate 5 "running")
  = replicate 4 "walking" ++ ["running"] ++ replicate 5 "walking" ++ ["running"].
Proof. reflexivity. Qed.

End debounce.

(** ** Frames without detection *)

Section gaps.
Context `{Numpy}.

(** The labels stored by [analyze_behavior] are the debounced raw labels of
    the frames with a detection. *)
Lemma analyze_behavior_labels (results : list Result) (raw : list (option string)) :
  raw_labels (new 60) results = Ok raw ->
  exists summary,
    analyze_behavior results = Ok summary
    /\ action <$> frame_by_frame_data summary = debounce [] (omap id raw).
Proof.
  intros Hraw.
  pose proof (frame_loop_raw_labels results
                {| extractor := new 60; motion_history := []; frame_actions := [] |} 0)
    as Hloop.
  simpl in Hloop. rewrite Hraw in Hloop. destruct Hloop as (st & Hloop & Hact & _).
  destruct (analyze_behavior_frame_loop _ _ Hloop) as (summary & Hs & Hf & _).
  exists summary. split; [done|]. by rewrite Hf.
Qed.

(** C10: a frame without detection leaves the state of the first loop, its
    running buffer included, as it was; a run of such frames only moves the
    frame index; the smoothed stream is the debounce of the labels of the
    frames with a detection, so three raw "running" frames, two frames without
    detection and two more raw "running" frames bring the fifth one out as
    "running". *)
Theorem no_detection_keeps_running_buffer :
  (forall (st : loop_state) (idx : Z) (result : Result),
     keypoints_xy result = [] ->
     loop_body st idx result = Ok st)
  /\ (forall (gap rest : list Result) (st : loop_state) (idx : Z),
        Forall (fun result => keypoints_xy result = []) gap ->
        frame_loop st idx (gap ++ rest)
        = frame_loop st (idx + Z.of_nat (length gap)) rest)
  /\ (forall (results : list Result) (raw : list (option string)),
        raw_labels (new 60) results = Ok raw ->
        exists summary,
          analyze_behavior results = Ok summary
          /\ action <$> frame_by_frame_data summary = debounce [] (omap id raw))
  /\ debounce []
       (omap id [Some "running"; Some "running"; Some "running"; None; None;
                 Some "running"; Some "running"])
     = ["walking"; "walking"; "walking"; "walking"; "running"].
Proof.
  split_and!.
  - apply loop_body_no_detection.
  - apply frame_loop_skip.
  - apply analyze_behavior_labels.
  - reflexivity.
Qed.

(** ** No usable frame *)

(** C1, as the code has it: when no frame has a detection (the empty list
    included) [analyze_behavior] raises nothing and returns the summary of
    zero frames, with no statistics entry (so no percentage), no segment and
    no per-frame record. *)
Theorem no_usable_frame_empty_summary (results : list Result) :
  Forall (fun result => keypoints_xy result = []) results ->
  analyze_behavior results = Ok empty_summary.
Proof.
  intros Hn. unfold analyze_behavior.
  rewrite (frame_loop_no_detection _ _ _ Hn). simpl.
  rewrite stats_of_nil. reflexivity.
Qed.

End gaps.

Lemma no_usable_frame_empty_summary_witness :
  Forall (fun result => keypoints_xy result = [])
    [samples.no_detection; samples.no_detection; samples.no_detection]
  /\ analyze_behavior (H := samples.numpy_model)
       [samples.no_detection; samples.no_detection; samples.no_detection]
     = Ok empty_summary.
Proof.
  assert (Hn : Forall (fun result => keypoints_xy result = [])
                 [samples.no_detection; samples.no_detection; samples.no_detection])
    by (repeat (constructor; [reflexivity|]); constructor).
  split; [exact Hn|].
  apply (no_usable_frame_empty_summary (H := samples.numpy_model) _ Hn).
Defined.

(** Against C1 as it is stated: on the empty list, and on a stream in which
    no frame has a detection, the aggregator raises no failure and returns a
    summary whose segment list, record list and statistics are empty. *)
Lemma empty_stream_is_not_refused :
  (~ exists e, analyze_behavior (H := samples.numpy_model) [] = Raise e)
  /\ (~ exists e,
        analyze_behavior (H := samples.numpy_model)
          [samples.no_detection; samples.no_detection] = Raise e)
  /\ (exists summary,
        analyze_behavior (H := samples.numpy_model) [] = Ok summary
        /\ action_timeline summary = []
        /\ frame_by_frame_data summary = []
        /\ action_statistics summary = ∅)
  /\ (exists summary,
        analyze_behavior (H := samples.numpy_model)
          [samples.no_detection; samples.no_detection] = Ok summary
        /\ action_timeline summary = []
        /\ frame_by_frame_data summary = []
        /\ action_statistics summary = ∅).
Proof.
  assert (H0 : analyze_behavior (H := samples.numpy_model) [] = Ok empty_summary)
    by reflexivity.
  assert (H2 : analyze_behavior (H := samples.numpy_model)
                 [samples.no_detection; samples.no_detection] = Ok empty_summary)
    by reflexivity.
  split_and!.
  - intros [e He]. rewrite H0 in He. discriminate.
  - intros [e He]. rewrite H2 in He. discriminate.
  - exists empty_summary. by rewrite H0.
  - exists empty_summary. by rewrite H2.
Qed.

(** ** Segmentation *)

Section segmentation.
Context `{Numpy}.

Lemma segment_loop_runs (frames : list frame_data) (st : segment_state) (i : Z)
    (a : string) :
  current_action st = Some a ->
  finish (segment_loop st i frames) (i + Z.of_nat (length frames))
  = action_segments st ++ runs_from a (segment_start st) i (action <$> frames).
Proof.
  revert st i a. induction frames as [|f frames IH]; intros st i a Hcur.
  - simpl. unfold finish. by rewrite Hcur, Z.add_0_r.
  - cbn [segment_loop fmap list_fmap runs_from length].
    replace (i + Z.of_nat (S (length frames))) with (i + 1 + Z.of_nat (length frames))
      by lia.
    unfold segment_body. rewrite Hcur.
    destruct (decide (Some (action f) <> Some a)) as [Hne|Heq].
    + rewrite (IH _ _ (action f)) by done. simpl.
      destruct (decide (action f = a)) as [Hfa|_]; [by rewrite Hfa in Hne|].
      by rewrite <- app_assoc.
    + destruct (decide (action f = a)) as [Hfa|Hfa]; [|by destruct Heq; intros [=]].
      by rewrite (IH _ _ a).
Qed.

Lemma segments_of_cons (f : frame_data) (frames : list frame_data) :
  segments_of (f :: frames) = runs_from (action f) 0 1 (action <$> frames).
Proof.
  set (st1 := {| action_segments := []; current_action := Some (action f);
                 segment_start := 0 |}).
  transitivity (finish (segment_loop st1 1 frames) (1 + Z.of_nat (length frames))).
  - unfold segments_of, finish. cbn [segment_loop length].
    replace (Z.of_nat (S (length frames))) with (1 + Z.of_nat (length frames)) by lia.
    reflexivity.
  - by rewrite (segment_loop_runs frames st1 1 (action f)).
Qed.

Lemma runs_from_rle (labels : list string) (a : string) (s i : Z) :
  s < i ->
  rle s (replicate (Z.to_nat (i - s)) a ++ labels) (runs_from a s i labels).
Proof.
  revert a s i. induction labels as [|b labels IH]; intros a s i Hsi; simpl.
  - apply rle_run; simpl; try done; try lia. constructor.
  - destruct (decide (b = a)) as [->|Hba].
    + replace (replicate (Z.to_nat (i - s)) a ++ a :: labels)
        with (replicate (Z.to_nat (i + 1 - s)) a ++ labels).
      { apply IH. lia. }
      replace (Z.to_nat (i + 1 - s)) with (S (Z.to_nat (i - s))) by lia.
      by rewrite replicate_S_end, <- app_assoc.
    + apply rle_run; simpl; try done; try lia.
      { intros [= ->]. done. }
      replace (s + (i - s)) with i by lia.
      pose proof (IH b i (i + 1) ltac:(lia)) as Hrle.
      by replace (i + 1 - i) with 1 in Hrle by lia.
Qed.

Lemma segments_of_rle (frames : list frame_data) :
  rle 0 (action <$> frames) (segments_of frames).
Proof.
  destruct frames as [|f frames]; [constructor|].
  rewrite segments_of_cons. apply (runs_from_rle _ _ 0 1). lia.
Qed.

End segmentation.

Section rle_facts.
Context `{Numpy}.

Lemma rle_total (start : Z) (labels : list string) (segs : list segment) :
  rle start labels segs -> total_frames_of segs = Z.of_nat (length labels).
Proof.
  induction 1 as [|start n a labels seg segs Hn _ _ _ _ Hd _ _ IH]; [done|].
  unfold total_frames_of in *. rewrite fmap_cons. cbn [foldr].
  rewrite IH, Hd, length_app, length_replicate. lia.
Qed.

Lemma rle_expand (start : Z) (labels : list string) (segs : list segment) :
  rle start labels segs -> expand segs = labels.
Proof.
  induction 1 as [|start n a labels seg segs _ _ Ha _ _ Hd _ _ IH]; [done|].
  unfold expand in *. simpl. by rewrite IH, Ha, Hd.
Qed.

Lemma rle_head (start : Z) (labels : list string) (segs : list segment) (seg : segment) :
  rle start labels segs -> head segs = Some seg ->
  start_frame seg = start /\ head labels = Some (seg_action seg).
Proof.
  destruct 1 as [|start n a labels seg' segs Hn _ Ha Hs _ _ _ _]; [done|].
  intros [= ->]. split; [done|].
  destruct (Z.to_nat n) as [|m] eqn:Hm; [lia|]. simpl. by rewrite Ha.
Qed.

Lemma rle_nonempty (start : Z) (labels : list string) (segs : list segment) :
  rle start labels segs -> labels <> [] -> segs <> [].
Proof. by destruct 1. Qed.

Lemma rle_last (start : Z) (labels : list string) (segs : list segment) (seg : segment) :
  rle start labels segs -> last segs = Some seg ->
  end_frame seg = start + Z.of_nat (length labels) - 1.
Proof.
  induction 1 as [|start n a labels seg' segs Hn _ _ _ He _ _ Hrle IH]; [done|].
  rewrite length_app, length_replicate. destruct segs as [|seg2 segs].
  - intros [= ->]. inversion Hrle; subst. simpl. lia.
  - intros Hlast. change (last (seg2 :: segs) = Some seg) in Hlast.
    rewrite (IH Hlast). lia.
Qed.

Lemma rle_segments (start : Z) (labels : list string) (segs : list segment) :
  rle start labels segs ->
  Forall (fun seg =>
            1 <= duration_frames seg
            /\ end_frame seg = start_frame seg + duration_frames seg - 1
            /\ duration_seconds seg = (float_of_int (duration_frames seg) / 30)%float
            /\ start <= start_frame seg
            /\ end_frame seg < start + Z.of_nat (length labels))
         segs.
Proof.
  induction 1 as [|start n a labels seg segs Hn _ _ Hs He Hd Hsec _ IH];
    constructor.
  - rewrite Hd, He, Hs, Hsec, length_app, length_replicate. split_and!; try done; lia.
  - eapply Forall_impl; [exact IH|]. simpl. intros seg' (? & ? & ? & ? & ?).
    rewrite length_app, length_replicate. split_and!; try done; lia.
Qed.

Lemma rle_adjacent (start : Z) (labels : list string) (segs : list segment)
    (k : nat) (s1 s2 : segment) :
  rle start labels segs ->
  segs !! k = Some s1 -> segs !! S k = Some s2 ->
  start_frame s2 = end_frame s1 + 1 /\ seg_action s1 <> seg_action s2.
Proof.
  intros Hrle. revert k.
  induction Hrle as [|start n a labels seg segs Hn Hhead Ha Hs He _ _ Hrle IH];
    intros k H1 H2; [done|].
  destruct k as [|k]; simpl in H1, H2.
  - injection H1 as ->.
    destruct (rle_head _ _ _ s2 Hrle) as [Hs2 Hh2]; [by destruct segs; simplify_eq|].
    split; [lia|]. intros Heq. apply Hhead. by rewrite Hh2, <- Heq, Ha.
  - by apply (IH k).
Qed.

Lemma rle_ordered (start : Z) (labels : list string) (segs : list segment)
    (k1 k2 : nat) (s1 s2 : segment) :
  rle start labels segs ->
  segs !! k1 = Some s1 -> segs !! k2 = Some s2 -> (k1 < k2)%nat ->
  end_frame s1 < start_frame s2.
Proof.
  intros Hrle. revert k1 k2.
  induction Hrle as [|start n a labels seg segs Hn _ _ _ He _ _ Hrle IH];
    intros k1 k2 H1 H2 Hlt; [done|].
  destruct k2 as [|k2]; [lia|]. simpl in H2.
  destruct k1 as [|k1]; simpl in H1.
  - injection H1 as ->.
    pose proof (rle_segments _ _ _ Hrle) as Hall.
    rewrite Forall_lookup in Hall. destruct (Hall _ _ H2) as (_ & _ & _ & Hge & _). lia.
  - apply (IH k1 k2); [done..|lia].
Qed.

Lemma rle_cover (start : Z) (labels : list string) (segs : list segment)
    (j : nat) (a : string) :
  rle start labels segs ->
  labels !! j = Some a ->
  exists k seg,
    segs !! k = Some seg
    /\ start_frame seg <= start + Z.of_nat j <= end_frame seg
    /\ seg_action seg = a.
Proof.
  intros Hrle. revert j.
  induction Hrle as [|start n b labels seg segs Hn _ Hb Hs He _ _ Hrle IH];
    intros j Hj; [done|].
  destruct (decide (j < Z.to_nat n)%nat) as [Hlt|Hge].
  - rewrite lookup_app_l in Hj by (rewrite length_replicate; lia).
    apply lookup_replicate in Hj as [-> _].
    exists 0%nat, seg. split_and!; try done; lia.
  - rewrite lookup_app_r in Hj by (rewrite length_replicate; lia).
    rewrite length_replicate in Hj.
    destruct (IH _ Hj) as (k & seg' & Hk & Hin & Ha).
    exists (S k), seg'. split_and!; try done; lia.
Qed.

End rle_facts.

Section frames.
Context `{Numpy}.

Lemma insert_keeps_is_Some (m : gmap string pyval) (k key : string) (v : pyval) :
  is_Some (m !! key) -> is_Some (<[k := v]> m !! key).
Proof. intros Hm. rewrite lookup_insert_is_Some. destruct (decide (k = key)); auto. Qed.

Lemma compute_motion_features_keeps (buffer : list (kpts * bbox))
    (f0 f : gmap string pyval) (key : string) :
  _compute_motion_features buffer f0 = Ok f ->
  is_Some (f0 !! key) -> is_Some (f !! key).
Proof.
  unfold _compute_motion_features. intros Hf Hkey.
  destruct (negb _); [done|].
  do 4 inv_bind Hf. injection Hf as <-.
  by repeat apply insert_keeps_is_Some.
Qed.

Lemma extract_classifiable (result : Result) (f : gmap string pyval) (k : kpts) :
  _extract_semantic_features result = Ok (Some (f, k)) -> classifiable f k.
Proof.
  unfold _extract_semantic_features. intros Hf.
  inv_bind Hf. destruct a as [[kn [[[cx cy] w] h]]|]; [|done].
  do 9 inv_bind Hf. injection Hf as <- <-. split.
  - repeat constructor;
      repeat (first [by apply lookup_insert_is_Some; left
                    | apply insert_keeps_is_Some]).
  - match goal with Hang : angle_at _ 13%nat 12%nat 22%nat = Ok _ |- _ =>
      unfold angle_at in Hang; do 3 inv_bind Hang end.
    match goal with Hidx : index _ 22%nat = Ok _ |- _ =>
      apply index_Ok, lookup_lt_Some in Hidx end.
    lia.
Qed.

Lemma update_classifiable (self self' : FeatureExtractor) (result : Result)
    (f : gmap string pyval) (k : kpts) :
  update self result = Ok (Some (f, k), self') -> classifiable f k.
Proof.
  unfold update. intros Hu.
  inv_bind Hu. destruct a as [[f0 kn]|]; [|done].
  destruct (extract_classifiable _ _ _ Ha) as [Hkeys Hlen].
  inv_bind Hu. destruct a as [[? b]|]; [|done].
  destruct (2 <=? _).
  - inv_bind Hu. injection Hu as <- <- _. split; [|done].
    eapply Forall_impl; [exact Hkeys|]. simpl. intros key.
    by eapply compute_motion_features_keeps.
  - injection Hu as <- <- _. split; [|done].
    eapply Forall_impl; [exact Hkeys|]. simpl. intros key Hkey.
    by repeat apply insert_keeps_is_Some.
Qed.

(** On the features of the extractor the classifier raises nothing. *)
Lemma recognize_action_total (features : gmap string pyval) (keypoints_norm : kpts) :
  classifiable features keypoints_norm ->
  exists label, recognize_action (Some features) (Some keypoints_norm) = Ok label.
Proof.
  intros Hc. destruct (classifiable_read_locals _ _ Hc) as (l & Hl & _).
  unfold recognize_action. rewrite Hl. simpl. eauto.
Qed.

Lemma update_detection (self self' : FeatureExtractor) (result : Result)
    (r : option (gmap string pyval * kpts)) :
  update self result = Ok (r, self') ->
  (keypoints_xy result = [] <-> r = None).
Proof.
  intros Hu. split.
  - intros Hk. rewrite (update_no_detection _ _ Hk) in Hu.
    by injection Hu as <- _.
  - intros ->. unfold update in Hu.
    inv_bind Hu. destruct a as [[f0 kn]|].
    + inv_bind Hu. destruct a as [[? b]|]; [|done].
      destruct (2 <=? _); [inv_bind Hu|]; done.
    + unfold _extract_semantic_features in Ha. inv_bind Ha.
      destruct a as [[kn [[[cx cy] w] h]]|].
      * by do 9 inv_bind Ha.
      * unfold _process_result in Ha0. destruct (orig_shape result).
        destruct (keypoints_xy result); [done|].
        by destruct (boxes_xywh result) as [|[[[? ?] ?] ?] ?].
Qed.

(** The per-frame records carry the original index of their frame. *)
Lemma frame_loop_frames (results : list Result) (st st' : loop_state) (idx : Z) :
  frame_loop st idx results = Ok st' ->
  frame <$> frame_actions st'
  = (frame <$> frame_actions st) ++ detected_indices idx results.
Proof.
  revert st idx. induction results as [|result results IH]; intros st idx Hloop.
  - injection Hloop as <-. by rewrite app_nil_r.
  - simpl in Hloop. inv_bind Hloop. rewrite (IH _ _ Hloop). clear IH Hloop.
    unfold loop_body in Ha. inv_bind Ha. destruct a0 as [r ext].
    pose proof (update_detection _ _ _ _ Ha0) as Hdet. simpl.
    destruct r as [[f k]|].
    + inv_bind Ha.
      destruct (temporal_filter a0 (motion_history st)) as [a' mh].
      injection Ha as <-. simpl.
      destruct (keypoints_xy result); [by pose proof (proj1 Hdet eq_refl)|].
      by rewrite fmap_app, <- app_assoc.
    + injection Ha as <-. simpl. by rewrite (proj2 Hdet).
Qed.

Lemma analyze_behavior_frames (results : list Result) (summary : behavior_summary) :
  analyze_behavior results = Ok summary ->
  frame <$> frame_by_frame_data summary = detected_indices 0 results
  /\ action_timeline summary = segments_of (frame_by_frame_data summary).
Proof.
  unfold analyze_behavior. intros Ha. do 3 inv_bind Ha. injection Ha as <-. simpl.
  split; [|done]. by rewrite (frame_loop_frames _ _ _ _ Ha0).
Qed.

(** C3, at a stream whose first frame has no detection: the record of the
    only processed frame carries the original index 1, and the only segment
    runs from 0 to 0. *)
Theorem segments_count_processed_frames :
  exists summary record seg,
    analyze_behavior [samples.no_detection; samples.dog] = Ok summary
    /\ frame_by_frame_data summary = [record]
    /\ frame record = 1
    /\ action_timeline summary = [seg]
    /\ seg_action seg = action record
    /\ start_frame seg = 0
    /\ end_frame seg = 0.
Proof.
  destruct update_first_dog as (f & k & b & Hu).
  destruct (recognize_action_total f k (update_classifiable _ _ _ _ _ Hu)) as [a Ha].
  destruct (temporal_filter a []) as [a' mh] eqn:Htf.
  set (record := frame_record 1 a' f).
  assert (Hloop : frame_loop
            {| extractor := new 60; motion_history := []; frame_actions := [] |}
            0 [samples.no_detection; samples.dog]
          = Ok {| extractor := {| window_size := 60; history_buffer := [b] |};
                  motion_history := mh; frame_actions := [record] |}).
  { cbn [frame_loop]. rewrite loop_body_no_detection by done.
    cbn [mbind res_bind]. unfold loop_body. cbn [extractor].
    rewrite Hu. cbn [mbind res_bind]. rewrite Ha. cbn [mbind res_bind].
    cbn [motion_history]. rewrite Htf. reflexivity. }
  destruct (analyze_behavior_frame_loop _ _ Hloop) as (summary & Hs & Hf & Ht & _).
  exists summary, record, (close_segment a' 0 1).
  split_and!; done.
Qed.

End frames.

(** The same on a longer stream, with the sample numpy: the records are the
    frames 1, 2 and 4 and the only segment runs from 0 to 2. *)
Example gaps_in_the_middle :
  match analyze_behavior (H := samples.numpy_model)
          [samples.no_detection; samples.dog; samples.dog; samples.no_detection;
           samples.dog] with
  | Ok summary =>
    frame <$> frame_by_frame_data summary = [1; 2; 4]
    /\ (fun seg => (seg_action seg, start_frame seg, end_frame seg))
         <$> action_timeline summary = [("standing", 0, 2)]
  | Raise _ => False
  end.
Proof. vm_compute. done. Qed.

Section segmentation_theorem.
Context `{Numpy}.

(** C5: the segments of a stream of N records are its run-length encoding:
    with N >= 1 there is a segment; the frame counts add up to N; the first
    segment starts at 0, each next one where the previous one ended plus one,
    and the last one ends at N - 1; two neighbours have different labels; a
    segment has at least one frame, as many as its bounds say, and lasts its
    frame count divided by 30; read in order the segments spell the label
    stream, and every record lies in exactly one segment, which has its
    label. *)
Theorem segments_are_run_length_encoding (frame_actions : list frame_data) :
  let segs := segments_of frame_actions in
  let N := Z.of_nat (length frame_actions) in
  (1 <= N -> segs <> [])
  /\ total_frames_of segs = N
  /\ (forall seg, head segs = Some seg -> start_frame seg = 0)
  /\ (forall seg, last segs = Some seg -> end_frame seg = N - 1)
  /\ (forall (k : nat) (s1 s2 : segment),
        segs !! k = Some s1 -> segs !! S k = Some s2 ->
        start_frame s2 = end_frame s1 + 1 /\ seg_action s1 <> seg_action s2)
  /\ Forall (fun seg =>
               1 <= duration_frames seg
               /\ duration_frames seg = end_frame seg - start_frame seg + 1
               /\ duration_seconds seg
                  = (float_of_int (duration_frames seg) / 30)%float)
            segs
  /\ expand segs = action <$> frame_actions
  /\ (forall (j : nat) (f : frame_data),
        frame_actions !! j = Some f ->
        exists (k : nat) (seg : segment),
          segs !! k = Some seg
          /\ start_frame seg <= Z.of_nat j <= end_frame seg
          /\ seg_action seg = action f
          /\ forall (k' : nat) (seg' : segment),
               segs !! k' = Some seg' ->
               start_frame seg' <= Z.of_nat j <= end_frame seg' ->
               k' = k).
Proof.
  intros segs N. subst segs N.
  pose proof (segments_of_rle frame_actions) as Hrle.
  split_and!.
  - intros HN. apply (rle_nonempty _ _ _ Hrle).
    destruct frame_actions; [simpl in HN; lia|done].
  - by rewrite (rle_total _ _ _ Hrle), length_fmap.
  - intros seg Hseg. by destruct (rle_head _ _ _ _ Hrle Hseg).
  - intros seg Hseg. rewrite (rle_last _ _ _ _ Hrle Hseg), length_fmap. lia.
  - intros k s1 s2. by apply rle_adjacent with (1 := Hrle).
  - eapply Forall_impl; [exact (rle_segments _ _ _ Hrle)|]. simpl.
    intros seg (? & ? & ? & _). split_and!; [done| lia |done].
  - by apply rle_expand with (1 := Hrle).
  - intros j f Hj.
    assert (Hlab : (action <$> frame_actions) !! j = Some (action f))
      by (by rewrite list_lookup_fmap, Hj).
    destruct (rle_cover _ _ _ _ _ Hrle Hlab) as (k & seg & Hk & Hin & Ha).
    exists k, seg. split_and!; [done|lia..|done|].
    intros k' seg' Hk' Hin'.
    destruct (Nat.lt_trichotomy k' k) as [Hlt|[Heq|Hgt]]; [|done|].
    + pose proof (rle_ordered _ _ _ _ _ _ _ Hrle Hk' Hk Hlt). lia.
    + pose proof (rle_ordered _ _ _ _ _ _ _ Hrle Hk Hk' Hgt). lia.
Qed.

End segmentation_theorem.

(** ** The theorems at sample inputs *)

Lemma segments_are_run_length_encoding_witness :
  1 <= Z.of_nat (length samples.sample_records)
  /\ segments_of samples.sample_records <> []
  /\ total_frames_of (segments_of samples.sample_records) = 3.
Proof.
  pose proof (segments_are_run_length_encoding samples.sample_records) as (Hne & Htotal & _).
  split; [simpl; lia|]. split; [apply Hne; simpl; lia|exact Htotal].
Defined.

Lemma update_no_detection_keeps_buffer_witness :
  keypoints_xy samples.no_detection = []
  /\ update (H := samples.numpy_model) (new 60) samples.no_detection
     = Ok (None, new 60).
Proof.
  split; [reflexivity|].
  apply (proj1 (update_no_detection_keeps_buffer (H := samples.numpy_model)
                  (new 60) samples.no_detection)).
  reflexivity.
Defined.

Lemma jump_threshold_strict_witness :
  classifiable samples.at_jump_threshold samples.dog_keypoints_norm
  /\ (exists label,
        recognize_action (Some samples.at_jump_threshold)
          (Some samples.dog_keypoints_norm) = Ok label
        /\ label <> "jumping")
  /\ classifiable samples.below_jump_threshold samples.dog_keypoints_norm
  /\ recognize_action (Some samples.below_jump_threshold)
       (Some samples.dog_keypoints_norm) = Ok "jumping".
Proof.
  assert (Hc : forall v,
             classifiable (<["centroid_vertical_velocity" := v]> samples.swinging_tail)
               samples.dog_keypoints_norm).
  { intros v. split; [|simpl; lia].
    repeat constructor; apply insert_keeps_is_Some; vm_compute; eauto. }
  split; [apply Hc|]. split; [|split; [apply Hc|]].
  - apply (jump_threshold_strict samples.at_jump_threshold samples.dog_keypoints_norm).
    + apply Hc.
    + reflexivity.
  - apply (jump_threshold_strict samples.below_jump_threshold
             samples.dog_keypoints_norm).
    + apply Hc.
    + vm_compute. reflexivity.
Defined.

Lemma wagging_suffix_needs_both_witness :
  exists l,
    read_locals samples.wagging_tail samples.dog_keypoints_norm = Ok l
    /\ recognize_action (Some samples.wagging_tail) (Some samples.dog_keypoints_norm)
       = Ok "standing_wagging"
    /\ idle_known_pose l
    /\ "standing_wagging" = pose l +:+ "_wagging".
Proof.
  destruct (read_locals samples.wagging_tail samples.dog_keypoints_norm)
    as [l|e] eqn:Hl; [|vm_compute in Hl; discriminate].
  exists l.
  assert (Hrec : recognize_action (Some samples.wagging_tail)
                   (Some samples.dog_keypoints_norm) = Ok "standing_wagging")
    by (vm_compute; reflexivity).
  assert (Hidle : idle_known_pose l).
  { assert (Hl' := Hl). vm_compute in Hl'. injection Hl' as <-.
    repeat split; try (vm_compute; reflexivity). vm_compute. discriminate. }
  split; [reflexivity|]. split; [exact Hrec|]. split; [exact Hidle|].
  destruct (wagging_suffix_needs_both samples.wagging_tail samples.dog_keypoints_norm
              l "standing_wagging" Hl Hrec) as (Hpose & _).
  destruct (Hpose Hidle) as [Hlabel _]. exact Hlabel.
Defined.


Lemma no_detection_keeps_running_buffer_witness :
  keypoints_xy samples.no_detection = []
  /\ loop_body (H := samples.numpy_model) samples.two_running 2 samples.no_detection
     = Ok samples.two_running.
Proof.
  split; [reflexivity|].
  apply (proj1 (no_detection_keeps_running_buffer (H := samples.numpy_model))).
  reflexivity.
Defined.

(** * Further properties *)

(** ** Lists and the error monad *)

Lemma keep_last_all {A} (n : nat) (l : list A) :
  (length l <= n)%nat -> keep_last n l = l.
Proof. intros Hl. unfold keep_last. by replace (length l - n)%nat with 0%nat by lia. Qed.

Lemma keep_last_length {A} (n : nat) (l : list A) :
  length (keep_last n l) = Nat.min n (length l).
Proof. unfold keep_last. rewrite length_drop. lia. Qed.

Lemma keep_last_app_l {A} (n : nat) (l r : list A) :
  keep_last n (keep_last n l ++ r) = keep_last n (l ++ r).
Proof.
  destruct (decide (length l <= n)%nat) as [Hle|Hgt].
  - by rewrite (keep_last_all n l).
  - unfold keep_last. rewrite !length_app, length_drop.
    replace (length l - (length l - n) + length r - n)%nat with (length r) by lia.
    replace (length l + length r - n)%nat with ((length l - n) + length r)%nat by lia.
    rewrite <- drop_drop. f_equal. rewrite drop_app_le by lia. done.
Qed.

Lemma mapM_Ok {A B} (f : A -> res B) (l : list A) :
  Forall (fun x => exists y, f x = Ok y) l -> exists ys, mapM f l = Ok ys.
Proof.
  induction 1 as [|x l [y Hy] _ [ys IH]]; simpl; [by eexists|].
  rewrite Hy. simpl. rewrite IH. simpl. by eexists.
Qed.

Lemma mapM_Ok_length {A B} (f : A -> res B) (l : list A) (ys : list B) :
  mapM f l = Ok ys -> length ys = length l.
Proof.
  revert ys. induction l as [|x l IH]; intros ys Hm; simpl in Hm.
  - by injection Hm as <-.
  - destruct (f x) as [y|e]; simpl in Hm; [|done].
    destruct (mapM f l) as [ys'|e]; simpl in Hm; [|done].
    injection Hm as <-. simpl. by rewrite (IH ys').
Qed.

(** ** The sliding window *)

Section window.
Context `{Numpy}.

Lemma extract_process_result (result : Result) (f : gmap string pyval) (k : kpts) :
  _extract_semantic_features result = Ok (Some (f, k)) ->
  exists b, _process_result result = Ok (Some (k, b)).
Proof.
  unfold _extract_semantic_features. intros Hf.
  inv_bind Hf. destruct a as [[kn [[[cx cy] w] h]]|]; [|done].
  do 9 inv_bind Hf. injection Hf as _ <-. eauto.
Qed.

(** The extractor after [update]. *)
Lemma update_buffer (self self' : FeatureExtractor) (result : Result)
    (r : option (gmap string pyval * kpts)) :
  update self result = Ok (r, self') ->
  window_size self' = window_size self
  /\ match r with
     | None => normalized result = None /\ history_buffer self' = history_buffer self
     | Some (f, k) =>
       exists b,
         normalized result = Some (k, b)
         /\ history_buffer self'
            = (let buffer := history_buffer self ++ [(k, b)] in
               if window_size self <? Z.of_nat (length buffer)
               then drop 1 buffer else buffer)
     end.
Proof.
  unfold update. intros Hu. inv_bind Hu. destruct a as [[f0 k]|].
  - destruct (extract_process_result _ _ _ Ha) as [b Hb].
    rewrite Hb in Hu. simpl in Hu.
    assert (Hn : normalized result = Some (k, b)) by (unfold normalized; by rewrite Hb).
    destruct (2 <=? _).
    + inv_bind Hu. injection Hu as <- <-. split; [done|]. by exists b.
    + injection Hu as <- <-. split; [done|]. by exists b.
  - injection Hu as <- <-. split; [done|]. split; [|done].
    unfold _extract_semantic_features in Ha. inv_bind Ha.
    unfold normalized. rewrite Ha0.
    destruct a as [[kn [[[cx cy] w] h]]|]; [by do 9 inv_bind Ha|done].
Qed.

Lemma update_keeps_bound (self self' : FeatureExtractor) (result : Result)
    (r : option (gmap string pyval * kpts)) :
  update self result = Ok (r, self') ->
  Z.of_nat (length (history_buffer self)) <= window_size self ->
  Z.of_nat (length (history_buffer self')) <= window_size self'
  /\ history_buffer self'
     = keep_last (Z.to_nat (window_size self))
         (history_buffer self ++ option_list (normalized result)).
Proof.
  intros Hu Hlen. destruct (update_buffer _ _ _ _ Hu) as [Hws Hbuf]. rewrite Hws.
  destruct r as [[f k]|].
  - destruct Hbuf as (b & -> & ->). simpl.
    rewrite length_app. simpl.
    destruct (Z.ltb_spec (window_size self)
                (Z.of_nat (length (history_buffer self) + 1))) as [Hlt|Hge].
    + split; [rewrite length_drop, length_app; simpl; lia|].
      unfold keep_last. f_equal. rewrite length_app. simpl. lia.
    + split; [rewrite length_app; simpl; lia|].
      rewrite keep_last_all; [done|]. rewrite length_app. simpl. lia.
  - destruct Hbuf as [-> ->]. simpl. rewrite app_nil_r. split; [done|].
    rewrite keep_last_all; [done|lia].
Qed.

(** The entries that a stream appends to the window. *)
Lemma frame_loop_window (results : list Result) (st st' : loop_state) (idx : Z) :
  frame_loop st idx results = Ok st' ->
  Z.of_nat (length (history_buffer (extractor st))) <= window_size (extractor st) ->
  window_size (extractor st') = window_size (extractor st)
  /\ Z.of_nat (length (history_buffer (extractor st'))) <= window_size (extractor st)
  /\ history_buffer (extractor st')
     = keep_last (Z.to_nat (window_size (extractor st)))
         (history_buffer (extractor st) ++ omap normalized results).
Proof.
  revert st idx. induction results as [|result results IH]; intros st idx Hloop Hlen.
  - injection Hloop as <-. simpl. rewrite app_nil_r.
    split_and!; [done..|]. rewrite keep_last_all; [done|lia].
  - simpl in Hloop. inv_bind Hloop.
    assert (Hext : exists r, update (extractor st) result = Ok (r, extractor a)).
    { unfold loop_body in Ha. inv_bind Ha. destruct a0 as [[[f k]|] ext].
      - inv_bind Ha. destruct (temporal_filter _ _). injection Ha as <-. eauto.
      - injection Ha as <-. eauto. }
    destruct Hext as [r Hu].
    destruct (update_buffer _ _ _ _ Hu) as [Hws _].
    destruct (update_keeps_bound _ _ _ _ Hu Hlen) as [Hlen1 Hbuf1].
    destruct (IH _ _ Hloop Hlen1) as (Hws' & Hlen' & Hbuf').
    rewrite Hws in Hws', Hlen', Hbuf'. split_and!; [done..|].
    rewrite Hbuf', Hbuf1, keep_last_app_l. f_equal. simpl.
    rewrite <- app_assoc. f_equal. by destruct (normalized result).
Qed.

Lemma window_never_exceeds_size_aux (self self' : FeatureExtractor) (result : Result)
    (r : option (gmap string pyval * kpts)) :
  update self result = Ok (r, self') ->
  Z.of_nat (length (history_buffer self)) <= window_size self ->
  Z.of_nat (length (history_buffer self')) <= window_size self.
Proof.
  intros Hu Hlen. destruct (update_buffer _ _ _ _ Hu) as [Hws _].
  destruct (update_keeps_bound _ _ _ _ Hu Hlen) as [Hb _]. by rewrite Hws in Hb.
Qed.

(** X1: [update] never lets the window grow past [window_size]: when the
    buffer holds at most [window_size] entries before a call it does so
    after it, and so after every frame of a stream; [window_size] itself is
    never changed. *)
Theorem window_never_exceeds_size :
  (forall (self self' : FeatureExtractor) (result : Result)
          (r : option (gmap string pyval * kpts)),
     update self result = Ok (r, self') ->
     Z.of_nat (length (history_buffer self)) <= window_size self ->
     window_size self' = window_size self
     /\ Z.of_nat (length (history_buffer self')) <= window_size self')
  /\ (forall (results : list Result) (st st' : loop_state) (idx : Z),
        frame_loop st idx results = Ok st' ->
        Z.of_nat (length (history_buffer (extractor st))) <= window_size (extractor st) ->
        window_size (extractor st') = window_size (extractor st)
        /\ Z.of_nat (length (history_buffer (extractor st')))
           <= window_size (extractor st')).
Proof.
  split.
  - intros self self' result r Hu Hlen.
    destruct (update_buffer _ _ _ _ Hu) as [Hws _].
    by destruct (update_keeps_bound _ _ _ _ Hu Hlen).
  - intros results st st' idx Hloop Hlen.
    destruct (frame_loop_window _ _ _ _ Hloop Hlen) as (Hws & Hlen' & _).
    rewrite Hws. done.
Qed.

(** X2: the window is first in, first out: after a stream, an extractor that
    started within its size holds the most recent [window_size] normalized
    detections of what it held and was fed, oldest first; frames without
    detection add nothing. *)
Theorem window_holds_latest_detections
    (results : list Result) (st st' : loop_state) (idx : Z) :
  frame_loop st idx results = Ok st' ->
  Z.of_nat (length (history_buffer (extractor st))) <= window_size (extractor st) ->
  history_buffer (extractor st')
  = keep_last (Z.to_nat (window_size (extractor st)))
      (history_buffer (extractor st) ++ omap normalized results)
  /\ length (history_buffer (extractor st'))
     = Nat.min (Z.to_nat (window_size (extractor st)))
         (length (history_buffer (extractor st)) + length (omap normalized results)).
Proof.
  intros Hloop Hlen.
  destruct (frame_loop_window _ _ _ _ Hloop Hlen) as (_ & _ & Hbuf).
  split; [done|]. by rewrite Hbuf, keep_last_length, length_app.
Qed.

End window.

(** ** Malformed and well-formed detections *)

Section shapes.
Context `{Numpy}.

Lemma process_result_detection (result : Result) (row : kpts) (others : list kpts) :
  keypoints_xy result = row :: others ->
  (boxes_xywh result = [] -> _process_result result = Raise IndexError)
  /\ (boxes_xywh result <> [] ->
      exists kn b, _process_result result = Ok (Some (kn, b))
                   /\ length kn = length row).
Proof.
  intros Hk. unfold _process_result. rewrite Hk.
  destruct (orig_shape result) as [img_w img_h].
  destruct (boxes_xywh result) as [|[[[cx cy] w] h] bs]; split; try done.
  intros _. eexists _, _. split; [reflexivity|]. by rewrite length_fmap.
Qed.

Lemma index_total {A} (l : list A) (i : nat) :
  (i < length l)%nat -> exists x, index l i = Ok x.
Proof.
  intros Hi. unfold index. destruct (lookup_lt_is_Some_2 l i Hi) as [x ->]. eauto.
Qed.

Lemma index_short {A} (l : list A) (i : nat) :
  (length l <= i)%nat -> index l i = Raise IndexError.
Proof. intros Hi. unfold index. by rewrite lookup_ge_None_2. Qed.

Lemma angle_at_total (kp : kpts) (i j k : nat) :
  (i < length kp)%nat -> (j < length kp)%nat -> (k < length kp)%nat ->
  exists a, angle_at kp i j k = Ok a.
Proof.
  intros Hi Hj Hk. unfold angle_at.
  destruct (index_total kp i Hi) as [a ->].
  destruct (index_total kp j Hj) as [b ->].
  destruct (index_total kp k Hk) as [c ->]. simpl. eauto.
Qed.

Lemma distance_at_total (kp : kpts) (i j : nat) :
  (i < length kp)%nat -> (j < length kp)%nat ->
  exists d, distance_at kp i j = Ok d.
Proof.
  intros Hi Hj. unfold distance_at.
  destruct (index_total kp i Hi) as [a ->].
  destruct (index_total kp j Hj) as [b ->]. simpl. eauto.
Qed.

Lemma paws_y_total (kp : kpts) (i j : nat) :
  (i < length kp)%nat -> (j < length kp)%nat ->
  exists y, paws_y kp i j = Ok y.
Proof.
  intros Hi Hj. unfold paws_y.
  destruct (index_total kp i Hi) as [a ->].
  destruct (index_total kp j Hj) as [b ->]. simpl. eauto.
Qed.

Lemma leg_angles_total (kp : kpts) :
  (12 <= length kp)%nat -> exists a, leg_angles kp = Ok a.
Proof.
  intros Hl. unfold leg_angles.
  destruct (angle_at_total kp 0 1 2) as [fl ->]; [lia..|].
  destruct (angle_at_total kp 6 7 8) as [fr ->]; [lia..|].
  destruct (angle_at_total kp 3 4 5) as [rl ->]; [lia..|].
  destruct (angle_at_total kp 9 10 11) as [rr ->]; [lia..|].
  simpl. eauto.
Qed.

(** The first thing that [_extract_semantic_features] computes needs the
    keypoints 0 to 2, the tail angle needs the keypoint 22. *)
Lemma angle_at_short (kp : kpts) (i j k : nat) :
  (length kp <= i)%nat \/ (length kp <= j)%nat \/ (length kp <= k)%nat ->
  angle_at kp i j k = Raise IndexError.
Proof.
  intros Hs. unfold angle_at.
  destruct (decide (i < length kp)%nat) as [Hi|Hi];
    [|by rewrite (index_short kp i) by lia].
  destruct (index_total kp i Hi) as [a ->]. simpl.
  destruct (decide (j < length kp)%nat) as [Hj|Hj];
    [|by rewrite (index_short kp j) by lia].
  destruct (index_total kp j Hj) as [b ->]. simpl.
  rewrite (index_short kp k) by lia. done.
Qed.

Lemma extract_detection (result : Result) (row : kpts) (others : list kpts) :
  keypoints_xy result = row :: others ->
  (boxes_xywh result = [] \/ (length row < 23)%nat ->
   _extract_semantic_features result = Raise IndexError)
  /\ (boxes_xywh result <> [] -> (23 <= length row)%nat ->
      exists f k, _extract_semantic_features result = Ok (Some (f, k))
                  /\ length k = length row).
Proof.
  intros Hk. destruct (process_result_detection _ _ _ Hk) as [Hnobox Hbox].
  unfold _extract_semantic_features. split.
  - intros Hbad. destruct (boxes_xywh result) as [|bx bs] eqn:Hb.
    { by rewrite Hnobox. }
    destruct Hbad as [?|Hshort]; [done|].
    destruct Hbox as (kn & [[[cx cy] w] h] & -> & Hlen); [done|]. simpl.
    rewrite <- Hlen in Hshort.
    destruct (decide (length kn <= 11)%nat) as [H11|H11].
    + destruct (decide (length kn <= 2)%nat).
      { rewrite (angle_at_short kn 0 1 2) by lia. done. }
      destruct (angle_at_total kn 0 1 2) as [fl ->]; [lia..|]. simpl.
      destruct (decide (length kn <= 8)%nat).
      { rewrite (angle_at_short kn 6 7 8) by lia. done. }
      destruct (angle_at_total kn 6 7 8) as [fr ->]; [lia..|]. simpl.
      destruct (angle_at_total kn 3 4 5) as [rl ->]; [lia..|]. simpl.
      rewrite (angle_at_short kn 9 10 11) by lia. done.
    + destruct (angle_at_total kn 0 1 2) as [fl ->]; [lia..|]. simpl.
      destruct (angle_at_total kn 6 7 8) as [fr ->]; [lia..|]. simpl.
      destruct (angle_at_total kn 3 4 5) as [rl ->]; [lia..|]. simpl.
      destruct (angle_at_total kn 9 10 11) as [rr ->]; [lia..|]. simpl.
      rewrite (angle_at_short kn 13 12 22) by lia. done.
  - intros Hb Hlen.
    destruct (Hbox Hb) as (kn & [[[cx cy] w] h] & -> & Hkn). simpl.
    rewrite <- Hkn in Hlen.
    destruct (angle_at_total kn 0 1 2) as [fl ->]; [lia..|]. simpl.
    destruct (angle_at_total kn 6 7 8) as [fr ->]; [lia..|]. simpl.
    destruct (angle_at_total kn 3 4 5) as [rl ->]; [lia..|]. simpl.
    destruct (angle_at_total kn 9 10 11) as [rr ->]; [lia..|]. simpl.
    destruct (angle_at_total kn 13 12 22) as [ta ->]; [lia..|]. simpl.
    destruct (distance_at_total kn 0 6) as [d1 ->]; [lia..|]. simpl.
    destruct (distance_at_total kn 3 9) as [d2 ->]; [lia..|]. simpl.
    destruct (distance_at_total kn 22 13) as [d3 ->]; [lia..|]. simpl.
    destruct (distance_at_total kn 20 21) as [d4 ->]; [lia..|]. simpl.
    eexists _, kn. done.
Qed.

(** X3: a detection without a box, or with fewer than 23 keypoints, makes
    [update] raise IndexError (the feature extraction indexes the keypoints 0
    to 13 and 20 to 22); with a box and at least 23 keypoints the static
    extraction succeeds and keeps the number of keypoints. *)
Theorem malformed_detection_raises
    (self : FeatureExtractor) (result : Result) (row : kpts) (others : list kpts) :
  keypoints_xy result = row :: others ->
  (boxes_xywh result = [] \/ (length row < 23)%nat ->
   update self result = Raise IndexError)
  /\ (boxes_xywh result <> [] -> (23 <= length row)%nat ->
      exists f k, _extract_semantic_features result = Ok (Some (f, k))
                  /\ length k = length row).
Proof.
  intros Hk. destruct (extract_detection _ _ _ Hk) as [Hbad Hgood].
  split; [|exact Hgood].
  intros Hm. unfold update. by rewrite (Hbad Hm).
Qed.

(** X4: [update] looks at the first detected animal only: two frames with
    the same image shape, the same first row of keypoints and the same first
    box give the same result, whatever else they hold. *)
Theorem update_reads_first_detection
    (self : FeatureExtractor) (result1 result2 : Result) :
  orig_shape result1 = orig_shape result2 ->
  head (keypoints_xy result1) = head (keypoints_xy result2) ->
  head (boxes_xywh result1) = head (boxes_xywh result2) ->
  update self result1 = update self result2.
Proof.
  intros Hs Hk Hb.
  assert (Hp : _process_result result1 = _process_result result2).
  { unfold _process_result. rewrite Hs. destruct (orig_shape result2).
    destruct (keypoints_xy result1), (keypoints_xy result2); simplify_eq/=; [done|].
    by destruct (boxes_xywh result1), (boxes_xywh result2); simplify_eq/=. }
  unfold update, _extract_semantic_features. by rewrite Hp.
Qed.

End shapes.

(** ** The keys of the feature mapping *)

Section keys.
Context `{Numpy}.

Lemma extract_dom (result : Result) (f : gmap string pyval) (k : kpts) :
  _extract_semantic_features result = Ok (Some (f, k)) ->
  dom f = list_to_set static_keys.
Proof.
  unfold _extract_semantic_features. intros Hf.
  inv_bind Hf. destruct a as [[kn [[[cx cy] w] h]]|]; [|done].
  do 9 inv_bind Hf. injection Hf as <- _.
  rewrite !dom_insert_L, dom_empty_L. simpl. apply set_eq; intros x; set_unfold; tauto.
Qed.

Lemma compute_motion_features_dom (buffer : list (kpts * bbox))
    (f0 f : gmap string pyval) :
  _compute_motion_features buffer f0 = Ok f ->
  dom f = dom f0 ∪ list_to_set motion_keys.
Proof.
  unfold _compute_motion_features. intros Hf.
  destruct (negb _); [done|].
  do 4 inv_bind Hf. injection Hf as <-.
  rewrite !dom_insert_L. simpl. apply set_eq; intros x; set_unfold; tauto.
Qed.

(** X5: the feature mapping that [update] returns has the eleven static keys
    and, when the window holds two frames or more after the call, the nine
    motion keys; with a shorter window it has the four zero-filled motion keys
    instead; it has no other key. *)
Theorem update_key_sets (self self' : FeatureExtractor) (result : Result)
    (f : gmap string pyval) (k : kpts) :
  update self result = Ok (Some (f, k), self') ->
  dom f
  = list_to_set static_keys
    ∪ list_to_set (if 2 <=? Z.of_nat (length (history_buffer self'))
                   then motion_keys else default_motion_keys).
Proof.
  unfold update. intros Hu.
  inv_bind Hu. destruct a as [[f0 kn]|]; [|done].
  pose proof (extract_dom _ _ _ Ha) as Hdom.
  inv_bind Hu. destruct a as [[? b]|]; [|done].
  match type of Hu with context [2 <=? ?n] => destruct (2 <=? n) eqn:Hn end.
  - inv_bind Hu. injection Hu as <- _ <-. simpl. rewrite Hn.
    by rewrite (compute_motion_features_dom _ _ _ Ha1), Hdom.
  - injection Hu as <- _ <-. simpl. rewrite Hn.
    rewrite !dom_insert_L, Hdom. simpl. apply set_eq; intros x; set_unfold; tauto.
Qed.

End keys.

(** ** The count of local extrema *)

Lemma count_peaks_bounds (values : list float) :
  0 <= _count_peaks values <= Z.max 0 (Z.of_nat (length values) - 2).
Proof.
  induction values as [|prev rest IH]; [simpl; lia|].
  destruct rest as [|cur rest]; [simpl; lia|].
  destruct rest as [|next rest]; [simpl; lia|].
  change (_count_peaks (prev :: cur :: next :: rest))
    with ((if (prev <? cur)%float && (next <? cur)%float then 1
           else if (cur <? prev)%float && (cur <? next)%float then 1 else 0)
          + _count_peaks (cur :: next :: rest)).
  rewrite !length_cons in *. 
  destruct ((prev <? cur)%float && (next <? cur)%float);
    [|destruct ((cur <? prev)%float && (cur <? next)%float)]; lia.
Qed.

Section peaks.
Context `{Numpy}.

Lemma compute_motion_features_count (buffer : list (kpts * bbox))
    (f0 f : gmap string pyval) :
  _compute_motion_features buffer f0 = Ok f ->
  exists c, f !! "tail_oscillation_count" = Some (PInt c)
            /\ 0 <= c <= Z.max 0 (Z.of_nat (length buffer) - 2).
Proof.
  unfold _compute_motion_features. intros Hf.
  destruct (negb _); [done|].
  do 4 inv_bind Hf. injection Hf as <-.
  match goal with
  | Hm : mapM (fun kp => angle_at kp 13%nat 12%nat 22%nat) _ = Ok ?angles |- _ =>
    exists (_count_peaks angles); pose proof (mapM_Ok_length _ _ _ Hm) as Hlen;
    pose proof (count_peaks_bounds angles) as Hb end.
  rewrite length_fmap in Hlen. rewrite Hlen in Hb.
  split; [|done].
  repeat (rewrite lookup_insert_ne by discriminate). by rewrite lookup_insert_eq.
Qed.

(** X6: the tail oscillation count is the number of strict local extrema of
    a series: it lies between 0 and the length of the series minus 2.  In the
    mapping that [update] returns it is an int between 0 and the number of
    buffered frames minus 2, hence at most [window_size - 2] for an extractor
    within its size. *)
Theorem oscillation_count_bounds :
  (forall values : list float,
     0 <= _count_peaks values <= Z.max 0 (Z.of_nat (length values) - 2))
  /\ (forall (self self' : FeatureExtractor) (result : Result)
             (f : gmap string pyval) (k : kpts) (v : pyval),
        update self result = Ok (Some (f, k), self') ->
        f !! "tail_oscillation_count" = Some v ->
        exists c, v = PInt c
                  /\ 0 <= c <= Z.of_nat (length (history_buffer self')) - 2
                  /\ (Z.of_nat (length (history_buffer self)) <= window_size self ->
                      c <= window_size self - 2)).
Proof.
  split; [exact count_peaks_bounds|].
  intros self self' result f k v Hu Hv.
  pose proof (window_never_exceeds_size_aux self self' result _ Hu) as Hbound.
  unfold update in Hu.
  inv_bind Hu. destruct a as [[f0 kn]|]; [|done].
  pose proof (extract_static_keys _ _ _ Ha) as Hstatic.
  inv_bind Hu. destruct a as [[? b]|]; [|done].
  match type of Hu with context [2 <=? ?n] => destruct (Z.leb_spec 2 n) as [Hn|Hn] end.
  - inv_bind Hu. injection Hu as <- _ <-. simpl in *.
    destruct (compute_motion_features_count _ _ _ Ha1) as (c & Hc & Hcb).
    rewrite Hc in Hv. injection Hv as <-. exists c. split; [done|].
    split; [lia|]. intros Hlen. specialize (Hbound Hlen). lia.
  - injection Hu as <- _ _.
    rewrite !lookup_insert_ne in Hv by discriminate.
    rewrite Hstatic in Hv; [done|].
    rewrite !not_elem_of_cons. repeat split; first [discriminate | apply not_elem_of_nil].
Qed.

End peaks.

(** ** Streams of well-formed frames *)

Section total.
Context `{Numpy}.

Lemma same_length_check (n : nat) (rows : list kpts) :
  Forall (fun kp => length kp = n) rows ->
  forallb (fun kp => (length kp =? length (default [] (head rows)))%nat) rows = true.
Proof.
  intros Hall. destruct rows as [|row rows]; [done|].
  assert (Hn : length (default [] (head (row :: rows))) = n)
    by (simpl; by inversion Hall).
  rewrite Hn. clear Hn. induction Hall as [|kp l Hkp _ IH]; [done|].
  simpl. rewrite IH. by rewrite (proj2 (Nat.eqb_eq _ _) Hkp).
Qed.

Lemma compute_motion_features_total (n : nat) (buffer : list (kpts * bbox))
    (f0 : gmap string pyval) :
  (23 <= n)%nat ->
  Forall (fun entry => length entry.1 = n) buffer ->
  exists f, _compute_motion_features buffer f0 = Ok f.
Proof.
  intros Hn Hall.
  assert (Hrows : Forall (fun kp : kpts => length kp = n) (fst <$> buffer))
    by (by apply Forall_fmap).
  pose proof (same_length_check n _ Hrows) as Hchk.
  unfold _compute_motion_features.
  match goal with |- context [negb ?c] =>
    replace c with true by (symmetry; exact Hchk) end.
  simpl.
  destruct (mapM_Ok (fun kp => angle_at kp 13 12 22) (fst <$> buffer)) as [ta ->].
  { eapply Forall_impl; [exact Hrows|]. intros kp Hkp; simpl in Hkp. apply angle_at_total; lia. }
  simpl.
  destruct (mapM_Ok (fun kp => paws_y kp 0 6) (fst <$> buffer)) as [fy ->].
  { eapply Forall_impl; [exact Hrows|]. intros kp Hkp; simpl in Hkp; apply paws_y_total; lia. }
  simpl.
  destruct (mapM_Ok (fun kp => paws_y kp 3 9) (fst <$> buffer)) as [ry ->].
  { eapply Forall_impl; [exact Hrows|]. intros kp Hkp; simpl in Hkp; apply paws_y_total; lia. }
  simpl.
  destruct (mapM_Ok leg_angles (fst <$> buffer)) as [la ->].
  { eapply Forall_impl; [exact Hrows|]. intros kp Hkp; simpl in Hkp; apply leg_angles_total; lia. }
  simpl. eauto.
Qed.

Lemma update_total (n : nat) (self : FeatureExtractor) (result : Result) :
  (23 <= n)%nat ->
  well_formed_frame n result ->
  Forall (fun entry => length entry.1 = n) (history_buffer self) ->
  exists r self',
    update self result = Ok (r, self')
    /\ Forall (fun entry => length entry.1 = n) (history_buffer self').
Proof.
  intros Hn [Hnone|(row & others & Hk & Hrow & Hbox)] Hbuf.
  { exists None, self. by rewrite update_no_detection. }
  destruct (extract_detection _ _ _ Hk) as [_ Hgood].
  destruct (Hgood Hbox ltac:(lia)) as (f0 & k & Hex & Hlen).
  destruct (extract_process_result _ _ _ Hex) as [b Hb].
  unfold update. rewrite Hex. simpl. rewrite Hb. simpl.
  set (buffer := history_buffer self ++ [(k, b)]).
  assert (Hbuffer : Forall (fun entry : kpts * bbox => length entry.1 = n) buffer).
  { apply Forall_app. split; [done|]. constructor; [simpl; lia|constructor]. }
  set (buffer' := if window_size self <? Z.of_nat (length buffer)
                  then drop 1 buffer else buffer).
  assert (Hbuffer' : Forall (fun entry : kpts * bbox => length entry.1 = n) buffer').
  { subst buffer'. destruct (_ <? _); [by apply Forall_drop|done]. }
  destruct (2 <=? Z.of_nat (length buffer')).
  - destruct (compute_motion_features_total n buffer' f0 Hn Hbuffer') as [f ->].
    simpl. eauto.
  - eauto.
Qed.

Lemma frame_loop_total (n : nat) (results : list Result) (st : loop_state) (idx : Z) :
  (23 <= n)%nat ->
  Forall (well_formed_frame n) results ->
  Forall (fun entry => length entry.1 = n) (history_buffer (extractor st)) ->
  exists st', frame_loop st idx results = Ok st'.
Proof.
  intros Hn Hwf. revert st idx.
  induction Hwf as [|result results Hres _ IH]; intros st idx Hbuf; simpl; [eauto|].
  destruct (update_total n (extractor st) result Hn Hres Hbuf)
    as (r & ext & Hu & Hbuf').
  unfold loop_body. rewrite Hu. cbn [mbind res_bind]. destruct r as [[f k]|].
  - destruct (recognize_action_total f k (update_classifiable _ _ _ _ _ Hu))
      as [a ->]. cbn [mbind res_bind].
    destruct (temporal_filter a (motion_history st)) as [a' mh]. cbn [mbind res_bind].
    by apply IH.
  - cbn [mbind res_bind]. by apply IH.
Qed.

(** X7: on a stream in which every frame has either no detection or, for
    its first animal, a box and the same number [n >= 23] of keypoints (24 in
    the detector's contract), [analyze_behavior] raises nothing: it returns a
    summary that counts the frames with a detection. *)
Theorem analyze_behavior_total_on_well_formed (n : nat) (results : list Result) :
  (23 <= n)%nat ->
  Forall (well_formed_frame n) results ->
  exists summary,
    analyze_behavior results = Ok summary
    /\ info_total_frames (summary_video_info summary)
       = Z.of_nat (length (filter (fun result => keypoints_xy result <> []) results)).
Proof.
  intros Hn Hwf.
  destruct (frame_loop_total n results
              {| extractor := new 60; motion_history := []; frame_actions := [] |}
              0 Hn Hwf) as [st Hloop]; [constructor|].
  destruct (analyze_behavior_frame_loop _ _ Hloop) as (summary & Hs & Hf & _ & _ & Ht).
  exists summary. split; [done|]. rewrite Ht.
  pose proof (frame_loop_frames _ _ _ _ Hloop) as Hframes. simpl in Hframes.
  apply (f_equal length) in Hframes. rewrite length_fmap in Hframes.
  rewrite Hframes. f_equal. clear. generalize 0.
  induction results as [|result results IH]; intros idx; [done|].
  simpl. rewrite filter_cons.
  destruct (keypoints_xy result) eqn:Hk.
  - rewrite decide_False by (intros Hne; by apply Hne). apply IH.
  - rewrite decide_True by done. simpl. by rewrite IH.
Qed.

End total.

(** ** The labels of the classifier *)

Ltac in_list := repeat first [apply list_elem_of_here | apply list_elem_of_further].

Lemma decide_action_labels (l : locals) : decide_action l ∈ action_labels.
Proof.
  unfold decide_action, action_labels.
  destruct (lt (centroid_vy l) _); [in_list|].
  destruct (_ || _); [in_list|].
  pose proof (motion_cases l) as Hm. pose proof (pose_cases l) as Hp.
  rewrite !elem_of_cons in Hp.
  destruct (String.eqb_spec (motion l) "idle") as [Hidle|Hmove]; simpl.
  - destruct (String.eqb_spec (pose l) "unknown") as [Hu|Hk]; [in_list|].
    destruct (is_tail_wagging l);
      destruct Hp as [Hp|[Hp|[Hp|[Hp|[Hp|Hp]]]]];
      try (rewrite Hp; in_list); try done; by apply elem_of_nil in Hp.
  - destruct Hm as [Hm|[Hm|Hm]]; [done|rewrite Hm; in_list..].
Qed.

Lemma index_Raise {A} (l : list A) (i : nat) (e : exn) :
  index l i = Raise e -> e = IndexError.
Proof. unfold index. destruct (l !! i); [done|by intros [= <-]]. Qed.

Lemma read_locals_Ok (features : gmap string pyval) (keypoints_norm : kpts) (l : locals) :
  read_locals features keypoints_norm = Ok l -> classifiable features keypoints_norm.
Proof.
  unfold read_locals, getitem. intros Hl.
  destruct (features !! "front_left_leg_angle") eqn:H1; [|done].
  destruct (features !! "front_right_leg_angle") eqn:H2; [|done].
  destruct (features !! "rear_left_leg_angle") eqn:H3; [|done].
  destruct (features !! "rear_right_leg_angle") eqn:H4; [|done].
  destruct (features !! "bbox_height") eqn:H5; [|done].
  destruct (features !! "bbox_width") eqn:H6; [|done].
  simpl in Hl. do 4 inv_bind Hl.
  split; [repeat constructor; eauto|].
  match goal with Hi : index _ 9%nat = Ok _ |- _ =>
    apply index_Ok, lookup_lt_Some in Hi end.
  unfold kpts, point in *. lia.
Qed.

Lemma read_locals_Raise (features : gmap string pyval) (keypoints_norm : kpts) (e : exn) :
  read_locals features keypoints_norm = Raise e ->
  (exists key, key ∈ required_keys /\ features !! key = None /\ e = KeyError key)
  \/ (Forall (fun key => is_Some (features !! key)) required_keys
      /\ (length keypoints_norm < 10)%nat /\ e = IndexError).
Proof.
  unfold read_locals, getitem, required_keys. intros Hl.
  destruct (features !! "front_left_leg_angle") eqn:H1;
    [|left; eexists; split_and!; [|exact H1|by injection Hl]; in_list].
  destruct (features !! "front_right_leg_angle") eqn:H2;
    [|left; eexists; split_and!; [|exact H2|by injection Hl]; in_list].
  destruct (features !! "rear_left_leg_angle") eqn:H3;
    [|left; eexists; split_and!; [|exact H3|by injection Hl]; in_list].
  destruct (features !! "rear_right_leg_angle") eqn:H4;
    [|left; eexists; split_and!; [|exact H4|by injection Hl]; in_list].
  destruct (features !! "bbox_height") eqn:H5;
    [|left; eexists; split_and!; [|exact H5|by injection Hl]; in_list].
  destruct (features !! "bbox_width") eqn:H6;
    [|left; eexists; split_and!; [|exact H6|by injection Hl]; in_list].
  right. split; [repeat constructor; eauto|]. simpl in Hl.
  destruct (decide (length keypoints_norm < 10)%nat) as [Hshort|Hlong].
  - split; [done|].
    destruct (index keypoints_norm 0) as [k0|e0] eqn:H0; simpl in Hl;
      [|apply index_Raise in H0; congruence].
    destruct (index keypoints_norm 6) as [k6|e6] eqn:H6'; simpl in Hl;
      [|apply index_Raise in H6'; congruence].
    destruct (index keypoints_norm 3) as [k3|e3] eqn:H3'; simpl in Hl;
      [|apply index_Raise in H3'; congruence].
    rewrite (index_short keypoints_norm 9) in Hl by lia. simpl in Hl. congruence.
  - exfalso.
    destruct (index_total keypoints_norm 0) as [k0 H0]; [lia|].
    destruct (index_total keypoints_norm 6) as [k6 H6']; [lia|].
    destruct (index_total keypoints_norm 3) as [k3 H3']; [lia|].
    destruct (index_total keypoints_norm 9) as [k9 H9]; [lia|].
    rewrite H0 in Hl. simpl in Hl. rewrite H6' in Hl. simpl in Hl.
    rewrite H3' in Hl. simpl in Hl. rewrite H9 in Hl. done.
Qed.

(** X8: the labels of the classifier form a closed set: "unknown" when the
    features or the keypoints are absent, and otherwise one of jumping,
    rearing, walking, running, idle, the four poses sitting, standing,
    standing_on_two_legs and lying, and these four poses with "_wagging"
    ("unknown" is not among them); each of these thirteen is the label of
    some input. *)
Theorem recognize_action_label_set :
  (forall (features : option (gmap string pyval)) (keypoints_norm : option kpts)
          (label : string),
     recognize_action features keypoints_norm = Ok label ->
     (label = "unknown" /\ (features = None \/ keypoints_norm = None))
     \/ (label ∈ action_labels /\ is_Some features /\ is_Some keypoints_norm))
  /\ (forall label : string,
        label ∈ action_labels ->
        exists (features : gmap string pyval) (keypoints_norm : kpts),
          recognize_action (Some features) (Some keypoints_norm) = Ok label).
Proof.
  split.
  - intros [features|] [keypoints_norm|] label Hrec; simpl in Hrec;
      try (injection Hrec as <-; left; split; [done|]; auto).
    right. inv_bind Hrec. injection Hrec as <-.
    split; [apply decide_action_labels|]. split; eauto.
  - intros label Hin. unfold action_labels in Hin. rewrite !elem_of_cons in Hin.
    destruct Hin as [->|[->|[->|[->|[->|[->|[->|[->|[->|[->|[->|[->|[->|Hin]]]]]]]]]]]]];
      [..|by apply elem_of_nil in Hin].
    + exists (features_of 0.01 (-0.02) 0 0 0 0 170 170 165 165 0.3 0.3),
        samples.dog_keypoints_norm. vm_compute. reflexivity.
    + exists (features_of 0.01 0 (-0.01) 0 0 0 170 170 165 165 0.3 0.3),
        samples.dog_keypoints_norm. vm_compute. reflexivity.
    + exists (features_of 0.1 0 0 0 0 0 170 170 165 165 0.3 0.3),
        samples.dog_keypoints_norm. vm_compute. reflexivity.
    + exists (features_of 0.2 0 0 0 0 20 170 170 165 165 0.3 0.3),
        samples.dog_keypoints_norm. vm_compute. reflexivity.
    + exists (features_of 0.01 0 0 0 0 0 55 55 75 75 0.3 0.3),
        samples.dog_keypoints_norm. vm_compute. reflexivity.
    + exists (features_of 0.01 0 0 0 0 0 90 90 60 60 0.3 0.3),
        samples.dog_keypoints_norm. vm_compute. reflexivity.
    + exists (features_of 0.01 0 0 0 0 0 170 170 165 165 0.3 0.3),
        samples.dog_keypoints_norm. vm_compute. reflexivity.
    + exists (features_of 0.01 0 0 0 0 0 50 50 165 165 0.3 0.6),
        samples.dog_keypoints_norm. vm_compute. reflexivity.
    + exists (features_of 0.01 0 0 0 0 0 40 40 30 30 0.3 0.3),
        samples.dog_keypoints_norm. vm_compute. reflexivity.
    + exists (features_of 0.01 0 0 12 30 0 90 90 60 60 0.3 0.3),
        samples.dog_keypoints_norm. vm_compute. reflexivity.
    + exists (features_of 0.01 0 0 12 30 0 170 170 165 165 0.3 0.3),
        samples.dog_keypoints_norm. vm_compute. reflexivity.
    + exists (features_of 0.01 0 0 12 30 0 50 50 165 165 0.3 0.6),
        samples.dog_keypoints_norm. vm_compute. reflexivity.
    + exists (features_of 0.01 0 0 12 30 0 40 40 30 30 0.3 0.3),
        samples.dog_keypoints_norm. vm_compute. reflexivity.
Qed.

(** X9: with both inputs present, and the box entries being floats whose
    division of line 33 has a divisor that is not zero, [recognize_action]
    returns a label exactly when the six entries that it reads without a
    default are in the mapping and there are at least ten keypoints;
    otherwise it raises KeyError for a missing one of these keys or, the keys
    being there, IndexError for fewer than ten keypoints.  The motion entries
    are read with a default and never make it raise. *)
Theorem recognize_action_raises_on_missing_input
    (features : gmap string pyval) (keypoints_norm : kpts) :
  box_ratio_defined features = true ->
  ((exists label, recognize_action (Some features) (Some keypoints_norm) = Ok label)
   <-> Forall (fun key => is_Some (features !! key)) required_keys
       /\ (10 <= length keypoints_norm)%nat)
  /\ (forall e : exn,
        recognize_action (Some features) (Some keypoints_norm) = Raise e ->
        (exists key, key ∈ required_keys /\ features !! key = None /\ e = KeyError key)
        \/ (Forall (fun key => is_Some (features !! key)) required_keys
            /\ (length keypoints_norm < 10)%nat /\ e = IndexError)).
Proof.
  intros _. split.
  - split.
    + intros [label Hrec]. simpl in Hrec. inv_bind Hrec.
      exact (read_locals_Ok _ _ _ Ha).
    + intros Hc. exact (recognize_action_total _ _ Hc).
  - intros e Hrec. simpl in Hrec.
    destruct (read_locals features keypoints_norm) as [l|e'] eqn:Hl; [done|].
    simpl in Hrec. injection Hrec as ->. exact (read_locals_Raise _ _ _ Hl).
Qed.

(** X10: the decision order.  With the inputs read, the label is "jumping"
    exactly when the centroid moves up faster than the jump threshold;
    "rearing" exactly when it is not jumping and the front paws move up
    faster than the rearing threshold or lie more than 0.3 above the rear
    paws; "running" and "walking" exactly when neither holds and the average
    velocity is above the idle threshold, "running" needing the walk
    threshold and the stride variance as well; "idle" exactly when none of
    these holds and no pose matches. *)
Theorem classification_order (features : gmap string pyval) (keypoints_norm : kpts)
    (l : locals) (label : string) :
  read_locals features keypoints_norm = Ok l ->
  recognize_action (Some features) (Some keypoints_norm) = Ok label ->
  let jump := lt (centroid_vy l) JUMP_VELOCITY_THRESHOLD in
  let rear := lt (front_vy l) REAR_FRONT_VELOCITY_THRESHOLD
              || (0.3 <? paw_height_diff l)%float in
  let moving := gt (avg_vel l) VELOCITY_THRESHOLD_IDLE in
  let fast := gt (avg_vel l) VELOCITY_THRESHOLD_WALK
              && gt (leg_stride_var l) LEG_STRIDE_THRESHOLD in
  (label = "jumping" <-> jump = true)
  /\ (label = "rearing" <-> jump = false /\ rear = true)
  /\ (label = "running" <-> jump = false /\ rear = false /\ moving = true /\ fast = true)
  /\ (label = "walking"
      <-> jump = false /\ rear = false /\ moving = true /\ fast = false)
  /\ (label = "idle"
      <-> jump = false /\ rear = false /\ moving = false /\ pose l = "unknown")
  /\ (moving = true -> label ∈ ["jumping"; "rearing"; "walking"; "running"]).
Proof.
  intros Hl Hrec jump rear moving fast. subst jump rear moving fast.
  unfold recognize_action in Hrec. rewrite Hl in Hrec. injection Hrec as <-.
  unfold decide_action, motion.
  pose proof (pose_cases l) as Hp. rewrite !elem_of_cons in Hp.
  destruct (lt (centroid_vy l) JUMP_VELOCITY_THRESHOLD);
    [split_and!; try (split; [done|intros ?; destruct_and?; done]);
     intros; in_list|].
  destruct (lt (front_vy l) REAR_FRONT_VELOCITY_THRESHOLD
            || (0.3 <? paw_height_diff l)%float);
    [split_and!; try (split; [done|intros ?; destruct_and?; done]);
     intros; in_list|].
  destruct (gt (avg_vel l) VELOCITY_THRESHOLD_IDLE).
  - destruct (gt (avg_vel l) VELOCITY_THRESHOLD_WALK
              && gt (leg_stride_var l) LEG_STRIDE_THRESHOLD); simpl;
      (split_and!; try (split; [done|intros ?; destruct_and?; done]);
       intros; in_list).
  - simpl. destruct (String.eqb_spec (pose l) "unknown") as [Hu|Hk].
    + split_and!; try (split; [done|intros ?; destruct_and?; done]); done.
    + assert (Hpose : forall s, s ∈ ["jumping"; "rearing"; "running"; "walking"; "idle"] ->
                (if is_tail_wagging l then pose l +:+ "_wagging" else pose l) <> s).
      { intros s Hs. rewrite !elem_of_cons in Hs.
        destruct (is_tail_wagging l);
          destruct Hp as [Hp|[Hp|[Hp|[Hp|[Hp|Hp]]]]];
          try (by apply elem_of_nil in Hp); try done; rewrite Hp;
          destruct Hs as [->|[->|[->|[->|[->|Hs]]]]];
          try (by apply elem_of_nil in Hs); done. }
      split_and!; try done;
        (split; [intros Heq; exfalso; eapply Hpose; [|exact Heq]; in_list
                |intros ?; destruct_and?; done]).
Qed.

(** ** The statistics per action *)

Section statistics.
Context `{Numpy}.

Lemma stat_of_Ok (frame_actions : list frame_data) (action_type : string)
    (s : action_stat) :
  stat_of frame_actions action_type = Ok s ->
  total_frames s = Z.of_nat (length (records_of frame_actions action_type))
  /\ tail_wagging_frames s
     = Z.of_nat (length (wagging_records_of frame_actions action_type))
  /\ percentage s
     = (float_of_int (total_frames s)
        / float_of_int (Z.of_nat (length frame_actions)) * 100)%float
  /\ tail_wagging_percentage s
     = (float_of_int (tail_wagging_frames s) / float_of_int (total_frames s) * 100)%float
  /\ avg_velocity s = np_mean (velocity <$> records_of frame_actions action_type).
Proof.
  unfold stat_of, truediv. intros Hs.
  destruct (Z.of_nat (length frame_actions) =? 0); simpl in Hs; [done|].
  match type of Hs with context [?n =? 0] => destruct (n =? 0) end;
    simpl in Hs; [done|].
  by injection Hs as <-.
Qed.

Lemma stats_loop_lookup (frame_actions : list frame_data) (action_types : list string)
    (m m' : gmap string action_stat) (a : string) :
  stats_loop m frame_actions action_types = Ok m' ->
  (a ∈ action_types ->
   exists s, stat_of frame_actions a = Ok s /\ m' !! a = Some s)
  /\ (a ∉ action_types -> m' !! a = m !! a).
Proof.
  revert m. induction action_types as [|t ts IH]; intros m Hloop; simpl in Hloop.
  - injection Hloop as <-. split; [by intros ?%elem_of_nil|done].
  - inv_bind Hloop. destruct (IH _ Hloop) as [Hin Hout]. split.
    + intros Ha. destruct (decide (a ∈ ts)) as [Hts|Hts]; [by apply Hin|].
      apply elem_of_cons in Ha as [->|?]; [|done].
      exists a0. split; [done|]. by rewrite (Hout Hts), lookup_insert_eq.
    + intros Ha. apply not_elem_of_cons in Ha as [Hne Hts].
      by rewrite (Hout Hts), lookup_insert_ne.
Qed.

Lemma stats_of_lookup (frame_actions : list frame_data)
    (m : gmap string action_stat) (a : string) :
  stats_of frame_actions = Ok m ->
  (a ∈ action <$> frame_actions ->
   exists s, stat_of frame_actions a = Ok s /\ m !! a = Some s)
  /\ (a ∉ action <$> frame_actions -> m !! a = None).
Proof.
  unfold stats_of. intros Hm.
  destruct (stats_loop_lookup _ _ _ _ a Hm) as [Hin Hout]. split.
  - intros Ha. apply Hin. by apply elem_of_elements, elem_of_list_to_set.
  - intros Ha. rewrite Hout; [done|].
    by rewrite elem_of_elements, elem_of_list_to_set.
Qed.

(** Every record is counted under exactly one of a duplicate-free list of
    labels that has its label. *)
Lemma count_by_label (labels : list string) (frame_actions : list frame_data) :
  NoDup labels ->
  Forall (fun f => action f ∈ labels) frame_actions ->
  foldr Z.add 0 ((fun a => Z.of_nat (length (records_of frame_actions a))) <$> labels)
  = Z.of_nat (length frame_actions).
Proof.
  intros Hnd Hall. induction Hall as [|f fs Hf _ IH].
  - clear Hnd. induction labels as [|a labels IHl]; [done|].
    rewrite fmap_cons. cbn [foldr]. by rewrite IHl.
  - rewrite length_cons, Nat2Z.inj_succ, <- IH. clear IH.
    induction Hnd as [|a labels Hnotin Hnd IHl]; [by apply elem_of_nil in Hf|].
    rewrite !fmap_cons. cbn [foldr]. unfold records_of at 1 3.
    rewrite filter_cons. destruct (decide (action f = a)) as [Heq|Hne].
    + assert (Hrest : (fun a0 => Z.of_nat (length (records_of (f :: fs) a0))) <$> labels
                      = (fun a0 => Z.of_nat (length (records_of fs a0))) <$> labels).
      { apply list_fmap_ext. intros i a0 Ha0. unfold records_of.
        rewrite filter_cons, decide_False; [done|].
        intros Hfa. apply Hnotin. rewrite <- Heq, Hfa.
        by eapply list_elem_of_lookup_2. }
      rewrite Hrest. simpl. lia.
    + apply elem_of_cons in Hf as [?|Hf]; [done|].
      rewrite (IHl Hf). lia.
Qed.

(** X11: [action_statistics] has one entry for each label that occurs among
    the records and none else; the entry counts the records of its label (at
    least one, at most all), and among them those with a wagging tail; its
    percentages are these counts over the totals, times 100; the frame
    counts of the entries add up to the number of records. *)
Theorem statistics_count_the_records (frame_actions : list frame_data)
    (m : gmap string action_stat) :
  stats_of frame_actions = Ok m ->
  dom m = list_to_set (action <$> frame_actions)
  /\ (forall (a : string) (s : action_stat),
        m !! a = Some s ->
        total_frames s = Z.of_nat (length (records_of frame_actions a))
        /\ 1 <= total_frames s <= Z.of_nat (length frame_actions)
        /\ tail_wagging_frames s
           = Z.of_nat (length (wagging_records_of frame_actions a))
        /\ 0 <= tail_wagging_frames s <= total_frames s
        /\ percentage s
           = (float_of_int (total_frames s)
              / float_of_int (Z.of_nat (length frame_actions)) * 100)%float
        /\ tail_wagging_percentage s
           = (float_of_int (tail_wagging_frames s)
              / float_of_int (total_frames s) * 100)%float)
  /\ foldr Z.add 0 ((fun entry => total_frames entry.2) <$> map_to_list m)
     = Z.of_nat (length frame_actions).
Proof.
  intros Hm.
  assert (Hentry : forall a s, m !! a = Some s ->
            a ∈ action <$> frame_actions /\ stat_of frame_actions a = Ok s).
  { intros a s Ha. destruct (stats_of_lookup _ _ a Hm) as [Hin Hout].
    destruct (decide (a ∈ action <$> frame_actions)) as [Hd|Hd].
    - destruct (Hin Hd) as (s' & Hs' & Hl). by simplify_eq.
    - rewrite (Hout Hd) in Ha. done. }
  split_and!.
  - apply set_eq. intros a. rewrite elem_of_dom, elem_of_list_to_set.
    destruct (stats_of_lookup _ _ a Hm) as [Hin Hout]. split.
    + intros [s Hs]. by destruct (Hentry _ _ Hs).
    + intros Ha. destruct (Hin Ha) as (s & _ & Hs). eauto.
  - intros a s Ha. destruct (Hentry _ _ Ha) as [Hin Hs].
    destruct (stat_of_Ok _ _ _ Hs) as (Ht & Hw & Hp & Hwp & _).
    apply list_elem_of_fmap in Hin as (f & -> & Hf).
    assert (Hf' : f ∈ records_of frame_actions (action f))
      by (by apply list_elem_of_filter).
    assert (1 <= length (records_of frame_actions (action f)))%nat
      by (destruct (records_of frame_actions (action f)); [by apply elem_of_nil in Hf'|simpl; lia]).
    pose proof (length_filter (fun f' => action f' = action f) frame_actions).
    pose proof (length_filter (fun f' => analyze_behavior.is_tail_wagging f' = true)
                  (records_of frame_actions (action f))).
    unfold wagging_records_of in *. unfold records_of in *.
    split_and!; try done; lia.
  - assert (Hsum : foldr Z.add 0 ((fun entry => total_frames entry.2) <$> map_to_list m)
                   = foldr Z.add 0
                       ((fun a => Z.of_nat (length (records_of frame_actions a)))
                          <$> (map_to_list m).*1)).
    { assert (Hall : Forall (fun entry : string * action_stat =>
                               m !! entry.1 = Some entry.2) (map_to_list m)).
      { apply Forall_forall. intros [a s] Has. by apply elem_of_map_to_list. }
      induction Hall as [|[a s] l Has _ IH]; [done|].
      rewrite !fmap_cons. cbn [foldr]. rewrite IH. simpl in *.
      destruct (Hentry _ _ Has) as [_ Hs].
      by destruct (stat_of_Ok _ _ _ Hs) as (-> & _). }
    rewrite Hsum. apply count_by_label; [apply NoDup_fst_map_to_list|].
    apply Forall_forall. intros f Hf.
    destruct (stats_of_lookup _ _ (action f) Hm) as [Hin _].
    destruct Hin as (s & _ & Hs); [by apply list_elem_of_fmap_2|].
    apply list_elem_of_fmap. exists (action f, s). split; [done|].
    by apply elem_of_map_to_list.
Qed.

End statistics.

(** ** The records and the summary *)

Lemma detected_indices_spec (results : list Result) (idx i : Z) :
  i ∈ detected_indices idx results
  <-> exists (j : nat) (result : Result),
        results !! j = Some result
        /\ keypoints_xy result <> []
        /\ i = idx + Z.of_nat j.
Proof.
  revert idx. induction results as [|r results IH]; intros idx; simpl.
  - split; [by intros ?%elem_of_nil|by intros (j & ? & ? & _)].
  - assert (Htail : i ∈ detected_indices (idx + 1) results
                    <-> exists (j : nat) (result : Result),
                          (r :: results) !! S j = Some result
                          /\ keypoints_xy result <> []
                          /\ i = idx + Z.of_nat (S j)).
    { rewrite IH. split; intros (j & res & Hj & Hk & ->); exists j, res;
        (split_and!; [done..|lia]). }
    destruct (keypoints_xy r) as [|row rows] eqn:Hr.
    + rewrite Htail. split.
      * intros (j & res & ?). by exists (S j), res.
      * intros ([|j] & res & Hj & Hk & Hi); [by simplify_eq/=|]. by exists j, res.
    + rewrite elem_of_cons, Htail. split.
      * intros [->|(j & res & ?)]; [|by exists (S j), res].
        exists 0%nat, r. split_and!; [done|by rewrite Hr|lia].
      * intros ([|j] & res & Hj & Hk & Hi); [left; lia|right; by exists j, res].
Qed.

Lemma detected_indices_sorted (results : list Result) (idx : Z) :
  StronglySorted Z.lt (detected_indices idx results)
  /\ Forall (fun i => idx <= i) (detected_indices idx results).
Proof.
  revert idx. induction results as [|r results IH]; intros idx; simpl.
  - split; constructor.
  - destruct (IH (idx + 1)) as [Hs Hall].
    assert (Hall' : Forall (fun i => idx < i) (detected_indices (idx + 1) results))
      by (eapply Forall_impl; [exact Hall|]; simpl; intros; lia).
    destruct (keypoints_xy r).
    + split; [done|]. eapply Forall_impl; [exact Hall'|]. simpl. intros. lia.
    + split; [by constructor|]. constructor; [lia|].
      eapply Forall_impl; [exact Hall'|]. simpl. intros. lia.
Qed.

Section summary.
Context `{Numpy}.

(** X12: the per-frame records are the frames with a detection, each under
    its index in the input, in increasing order: an index occurs among the
    records exactly when the frame at that index has a detection. *)
Theorem records_are_the_detected_frames
    (results : list Result) (summary : behavior_summary) :
  analyze_behavior results = Ok summary ->
  frame <$> frame_by_frame_data summary = detected_indices 0 results
  /\ (forall i : Z,
        i ∈ frame <$> frame_by_frame_data summary
        <-> exists (j : nat) (result : Result),
              results !! j = Some result
              /\ keypoints_xy result <> []
              /\ i = Z.of_nat j)
  /\ StronglySorted Z.lt (frame <$> frame_by_frame_data summary)
  /\ length (frame_by_frame_data summary)
     = length (filter (fun result => keypoints_xy result <> []) results).
Proof.
  intros Ha. destruct (analyze_behavior_frames _ _ Ha) as [Hf _].
  split_and!; [done| | |].
  - intros i. rewrite Hf, detected_indices_spec.
    split; intros (j & res & ? & ? & ->); exists j, res; (split_and!; [done..|lia]).
  - rewrite Hf. apply detected_indices_sorted.
  - apply (f_equal length) in Hf. rewrite length_fmap in Hf. rewrite Hf.
    clear. generalize 0. induction results as [|result results IH]; intros idx; [done|].
    simpl. rewrite filter_cons. destruct (keypoints_xy result) eqn:Hk.
    + rewrite decide_False by (intros Hne; by apply Hne). apply IH.
    + rewrite decide_True by done. simpl. by rewrite IH.
Qed.

Lemma temporal_filter_buffer (a : string) (mh : list string) :
  running_buffer mh ->
  running_buffer (temporal_filter a mh).2
  /\ ((temporal_filter a mh).1 = "running" ->
      a = "running" /\ (temporal_filter a mh).2 = replicate 5 "running").
Proof.
  intros (n & Hn & ->). destruct (decide (a = "running")) as [->|Ha].
  - rewrite temporal_filter_running by done. cbn [fst snd]. split.
    + exists (Nat.min 5 (S n)). split; [lia|done].
    + destruct (Nat.ltb_spec n 4); [done|]. intros _. split; [done|].
      f_equal. lia.
  - rewrite temporal_filter_other by done. cbn [fst snd]. split; [|done].
    exists 0%nat. split; [lia|done].
Qed.

Lemma loop_body_buffer (st st' : loop_state) (idx : Z) (result : Result) :
  loop_body st idx result = Ok st' ->
  running_buffer (motion_history st) ->
  running_buffer (motion_history st')
  /\ (frame_actions st' = frame_actions st
      \/ exists record,
           frame_actions st' = frame_actions st ++ [record]
           /\ (action record = "running" ->
               motion_history st' = replicate 5 "running")).
Proof.
  unfold loop_body. intros Hb Hinv. inv_bind Hb. destruct a as [[[f k]|] ext].
  - inv_bind Hb. destruct (temporal_filter_buffer a (motion_history st) Hinv) as [H1 H2].
    destruct (temporal_filter a (motion_history st)) as [a' mh].
    injection Hb as <-. simpl in *. split; [done|]. right.
    eexists. split; [done|]. simpl. intros Hr. by destruct (H2 Hr).
  - injection Hb as <-. simpl. split; [done|]. by left.
Qed.

(** X13: the running buffer of the first loop only ever holds "running",
    at most five times, and a record is stored as "running" only at a moment
    when the buffer holds exactly five. *)
Theorem running_buffer_invariant
    (results : list Result) (st st' : loop_state) (idx : Z) :
  frame_loop st idx results = Ok st' ->
  running_buffer (motion_history st) ->
  running_buffer (motion_history st')
  /\ (forall (result : Result) (st1 st2 : loop_state) (i : Z),
        running_buffer (motion_history st1) ->
        loop_body st1 i result = Ok st2 ->
        running_buffer (motion_history st2)
        /\ forall record,
             frame_actions st2 = frame_actions st1 ++ [record] ->
             action record = "running" ->
             motion_history st2 = replicate 5 "running").
Proof.
  intros Hloop Hinv. split.
  - revert st idx Hloop Hinv. induction results as [|result results IH];
      intros st idx Hloop Hinv; simpl in Hloop.
    + by injection Hloop as <-.
    + inv_bind Hloop. destruct (loop_body_buffer _ _ _ _ Ha Hinv) as [Hinv' _].
      by apply (IH _ _ Hloop).
  - intros result st1 st2 i Hinv1 Hb.
    destruct (loop_body_buffer _ _ _ _ Hb Hinv1) as [Hinv2 Hrec].
    split; [done|]. intros record Hfa Hr.
    destruct Hrec as [Hsame|(record' & Hfa' & Hfull)].
    + rewrite Hsame in Hfa. apply (f_equal length) in Hfa.
      rewrite length_app in Hfa. simpl in Hfa. lia.
    + rewrite Hfa' in Hfa. apply app_inj_tail in Hfa as [_ ->]. by apply Hfull.
Qed.

(** X14: the parts of the summary agree: [total_frames] is the number of
    records, the duration is that number over 30 fps, the timeline is the
    segmentation of the records and its frame counts add up to
    [total_frames], the statistics are those of the records, and the timeline
    is empty exactly when there is no record. *)
Theorem summary_parts_agree (results : list Result) (summary : behavior_summary) :
  analyze_behavior results = Ok summary ->
  let records := frame_by_frame_data summary in
  let info := summary_video_info summary in
  info_total_frames info = Z.of_nat (length records)
  /\ estimated_fps info = 30
  /\ info_duration_seconds info = (float_of_int (info_total_frames info) / 30)%float
  /\ action_timeline summary = segments_of records
  /\ total_frames_of (action_timeline summary) = info_total_frames info
  /\ stats_of records = Ok (action_statistics summary)
  /\ (action_timeline summary = [] <-> records = []).
Proof.
  unfold analyze_behavior. intros Ha. do 3 inv_bind Ha. injection Ha as <-. simpl.
  pose proof (segments_of_rle (frame_actions a)) as Hrle.
  split_and!; try done.
  - unfold truediv in Ha2. simpl in Ha2. by injection Ha2 as <-.
  - by rewrite (rle_total _ _ _ Hrle), length_fmap.
  - split.
    + intros Hnil. destruct (frame_actions a) as [|f fs]; [done|].
      exfalso. by apply (rle_nonempty _ _ _ Hrle).
    + by intros ->.
Qed.

End summary.

Example plain_formats :
  plain.format_fixed 1 33.333 = "33.3"
  /\ plain.format_fixed 1 0.25 = "0.2"
  /\ plain.format_fixed 1 0.35 = "0.3"
  /\ plain.format_fixed 1 100 = "100.0"
  /\ plain.format_fixed 4 0.0123456 = "0.0123"
  /\ plain.format_fixed 0 66.5 = "66"
  /\ plain.format_fixed 0 67.5 = "68"
  /\ plain.format_fixed 1 (-0.04) = "-0.0"
  /\ plain.read_float "33.3" = Ok 33.3%float
  /\ plain.read_float "-0.5" = Ok (-0.5)%float
  /\ plain.read_float "100" = Ok 100%float
  /\ plain.read_float "12a" = Raise ValueError
  /\ text.rstrip text.percent "12.5%" = "12.5"
  /\ text.upper "standing_on_two_legs" = "STANDING_ON_TWO_LEGS"
  /\ text.str 42 = "42".
Proof. vm_compute. repeat split. Qed.

(** ** The report *)

Section report_facts.
Context `{Numpy} `{Formatting}.

Lemma tail_observations_total (entries : list (string * action_stat)) :
  Forall (fun entry : string * action_stat =>
            exists v, percent_value
                        (percent_text (tail_wagging_percentage entry.2)) = Ok v)
    entries ->
  exists observations, tail_observations entries = Ok observations.
Proof.
  induction 1 as [|[a s] entries [v Hv] _ [obs IH]]; simpl; [eauto|].
  simpl in Hv. rewrite Hv. simpl. rewrite IH. simpl. eauto.
Qed.

Lemma percentage_of_total (analysis : behavior_summary) (a : string) :
  percent_texts_parse analysis ->
  exists v, percentage_of (action_statistics analysis) a = Ok v.
Proof.
  intros [Hall Hzero]. unfold percentage_of.
  destruct (action_statistics analysis !! a) as [s|] eqn:Ha; [|done].
  rewrite Forall_forall in Hall.
  destruct (Hall (a, s)) as [Hp _]; [by apply elem_of_map_to_list|]. done.
Qed.

(** X15: the report needs a segment.  On a summary whose timeline is empty
    [get_prompt_data] raises IndexError (at [action_timeline][0]), and that
    is what a stream without any detection leads to: [analyze_behavior]
    returns, the report raises.  With a segment in the timeline, and the
    percent texts being read back by [float()], the report is returned. *)
Theorem report_needs_a_segment :
  (forall analysis : behavior_summary,
     action_timeline analysis = [] ->
     get_prompt_data analysis = Raise IndexError)
  /\ (forall results : list Result,
        Forall (fun result => keypoints_xy result = []) results ->
        exists summary,
          analyze_behavior results = Ok summary
          /\ get_prompt_data summary = Raise IndexError)
  /\ (forall analysis : behavior_summary,
        action_timeline analysis <> [] ->
        percent_texts_parse analysis ->
        exists report, get_prompt_data analysis = Ok report).
Proof.
  assert (Hempty : forall analysis : behavior_summary,
            action_timeline analysis = [] ->
            get_prompt_data analysis = Raise IndexError).
  { intros analysis Hnil. unfold get_prompt_data. by rewrite Hnil. }
  split_and!.
  - exact Hempty.
  - intros results Hn. exists empty_summary. split; [|by apply Hempty].
    unfold analyze_behavior.
    rewrite (frame_loop_no_detection _ _ _ Hn). simpl. by rewrite stats_of_nil.
  - intros analysis Hne Hparse. unfold get_prompt_data.
    destruct (action_timeline analysis) as [|first rest] eqn:Ht; [done|].
    cbn [index lookup list_lookup mbind res_bind].
    destruct (tail_observations_total (map_to_list (action_statistics analysis)))
      as [obs ->].
    { destruct Hparse as [Hall _]. eapply Forall_impl; [exact Hall|].
      by intros entry [_ ?]. }
    cbn [mbind res_bind].
    destruct (percentage_of_total analysis "walking" Hparse) as [w ->].
    destruct (percentage_of_total analysis "running" Hparse) as [r ->].
    destruct (percentage_of_total analysis "rearing" Hparse) as [p ->].
    cbn [mbind res_bind]. eauto.
Qed.

End report_facts.

Lemma report_needs_a_segment_witness :
  action_timeline empty_summary = []
  /\ get_prompt_data (H := plain.formatting) empty_summary = Raise IndexError
  /\ action_timeline standing_summary <> []
  /\ percent_texts_parse (H := plain.formatting) standing_summary
  /\ exists report,
       get_prompt_data (H := plain.formatting) standing_summary = Ok report.
Proof.
  destruct (report_needs_a_segment (H := samples.numpy_model) (H0 := plain.formatting))
    as (Hempty & _ & Hreport).
  assert (Hparse : percent_texts_parse (H := plain.formatting) standing_summary).
  { split; [|eexists; vm_compute; reflexivity].
    replace (map_to_list (action_statistics standing_summary))
      with [("standing", {| total_frames := 3; percentage := 100;
                            avg_velocity := 0.0125;
                            velocity_range := (0, 0.025)%float;
                            tail_wagging_frames := 1;
                            tail_wagging_percentage := (1 / 3 * 100)%float |})]
      by (symmetry; apply map_to_list_singleton).
    constructor; [|constructor].
    split; eexists; vm_compute; reflexivity. }
  split; [reflexivity|]. split; [by apply Hempty|].
  split; [discriminate|]. split; [exact Hparse|].
  apply Hreport; [discriminate|exact Hparse].
Defined.

(** ** The further properties at sample inputs *)

Lemma is_Ok_true {A} (x : res A) : is_Ok x = true -> exists a, x = Ok a.
Proof. destruct x as [a|e]; [by exists a|discriminate]. Qed.

Lemma window_never_exceeds_size_witness :
  exists r self',
    update (H := samples.numpy_model) (new 60) samples.dog = Ok (r, self')
    /\ Z.of_nat (length (history_buffer (new 60))) <= window_size (new 60)
    /\ window_size self' = 60
    /\ Z.of_nat (length (history_buffer self')) <= window_size self'.
Proof.
  destruct (is_Ok_true (update (H := samples.numpy_model) (new 60) samples.dog))
    as [[r self'] Hu]; [vm_compute; reflexivity|].
  exists r, self'.
  assert (Hlen : Z.of_nat (length (history_buffer (new 60))) <= window_size (new 60))
    by (simpl; lia).
  destruct (proj1 (window_never_exceeds_size (H := samples.numpy_model))
              _ _ _ _ Hu Hlen) as [Hws Hb].
  split; [exact Hu|]. split; [exact Hlen|]. split; [exact Hws|exact Hb].
Defined.

Lemma window_holds_latest_detections_witness :
  exists st',
    frame_loop (H := samples.numpy_model) initial_state 0
      [samples.no_detection; samples.dog] = Ok st'
    /\ Z.of_nat (length (history_buffer (extractor initial_state)))
       <= window_size (extractor initial_state)
    /\ length (history_buffer (extractor st')) = 1%nat.
Proof.
  destruct (is_Ok_true (frame_loop (H := samples.numpy_model) initial_state 0
                          [samples.no_detection; samples.dog]))
    as [st' Hloop]; [vm_compute; reflexivity|].
  exists st'.
  assert (Hlen : Z.of_nat (length (history_buffer (extractor initial_state)))
                 <= window_size (extractor initial_state)) by (simpl; lia).
  destruct (window_holds_latest_detections (H := samples.numpy_model)
              _ _ _ _ Hloop Hlen) as [_ Hn].
  split; [exact Hloop|]. split; [exact Hlen|]. rewrite Hn. reflexivity.
Defined.

Lemma malformed_detection_raises_witness :
  keypoints_xy short_detection = [take 5 samples.dog_keypoints]
  /\ (length (take 5 samples.dog_keypoints) < 23)%nat
  /\ update (H := samples.numpy_model) (new 60) short_detection = Raise IndexError.
Proof.
  split; [reflexivity|]. split; [simpl; lia|].
  apply (proj1 (malformed_detection_raises (H := samples.numpy_model) (new 60)
                  short_detection (take 5 samples.dog_keypoints) [] eq_refl)).
  right. simpl. lia.
Defined.

Lemma update_reads_first_detection_witness :
  orig_shape two_animals = orig_shape samples.dog
  /\ head (keypoints_xy two_animals) = head (keypoints_xy samples.dog)
  /\ head (boxes_xywh two_animals) = head (boxes_xywh samples.dog)
  /\ update (H := samples.numpy_model) (new 60) two_animals
     = update (H := samples.numpy_model) (new 60) samples.dog.
Proof.
  split; [reflexivity|]. split; [reflexivity|]. split; [reflexivity|].
  apply (update_reads_first_detection (H := samples.numpy_model));
    reflexivity.
Defined.

Lemma update_key_sets_witness :
  exists f k self',
    update (H := samples.numpy_model) (new 60) samples.dog = Ok (Some (f, k), self')
    /\ dom f = list_to_set static_keys ∪ list_to_set default_motion_keys.
Proof.
  destruct (update_first_dog (H := samples.numpy_model)) as (f & k & b & Hu).
  exists f, k, {| window_size := 60; history_buffer := [b] |}.
  split; [exact Hu|].
  exact (update_key_sets (H := samples.numpy_model) _ _ _ _ _ Hu).
Defined.

Lemma oscillation_count_bounds_witness :
  0 <= _count_peaks [1; 3; 2; 2; 1; 4]%float
    <= Z.max 0 (Z.of_nat (length [1; 3; 2; 2; 1; 4]%float) - 2)
  /\ exists st' f k self'' c,
       frame_loop (H := samples.numpy_model) initial_state 0
         [samples.dog; samples.dog] = Ok st'
       /\ update (H := samples.numpy_model) (extractor st') samples.dog
          = Ok (Some (f, k), self'')
       /\ f !! "tail_oscillation_count" = Some (PInt c)
       /\ 0 <= c <= Z.of_nat (length (history_buffer self'')) - 2.
Proof.
  destruct (oscillation_count_bounds (H := samples.numpy_model)) as [Hpeaks Hupd].
  split; [apply Hpeaks|].
  assert (Htest :
    match frame_loop (H := samples.numpy_model) initial_state 0
            [samples.dog; samples.dog] with
    | Ok st' =>
        match update (H := samples.numpy_model) (extractor st') samples.dog with
        | Ok (Some (f, _), _) =>
            match f !! "tail_oscillation_count" with
            | Some _ => true
            | None => false
            end
        | _ => false
        end
    | Raise _ => false
    end = true) by (vm_compute; reflexivity).
  destruct (frame_loop (H := samples.numpy_model) initial_state 0
              [samples.dog; samples.dog]) as [st'|e]; [|discriminate].
  destruct (update (H := samples.numpy_model) (extractor st') samples.dog)
    as [[[[f k]|] self'']|e] eqn:Hu; [|discriminate..].
  destruct (f !! "tail_oscillation_count") as [v|] eqn:Hv; [|discriminate].
  destruct (Hupd _ _ _ _ _ _ Hu Hv) as (c & -> & Hc & _).
  exists st', f, k, self'', c.
  split; [reflexivity|]. split; [exact Hu|]. split; [exact Hv|exact Hc].
Defined.

Lemma analyze_behavior_total_on_well_formed_witness :
  (23 <= 24)%nat
  /\ Forall (well_formed_frame 24) [samples.no_detection; samples.dog]
  /\ exists summary,
       analyze_behavior (H := samples.numpy_model) [samples.no_detection; samples.dog]
       = Ok summary
       /\ info_total_frames (summary_video_info summary) = 1.
Proof.
  assert (Hwf : Forall (well_formed_frame 24) [samples.no_detection; samples.dog]).
  { constructor; [by left|]. constructor; [|constructor].
    right. exists samples.dog_keypoints, []. split; [reflexivity|].
    split; [reflexivity|discriminate]. }
  split; [lia|]. split; [exact Hwf|].
  destruct (analyze_behavior_total_on_well_formed (H := samples.numpy_model) 24
              [samples.no_detection; samples.dog] ltac:(lia) Hwf)
    as (summary & Hs & Ht).
  exists summary. split; [exact Hs|]. rewrite Ht. reflexivity.
Defined.

Lemma recognize_action_label_set_witness :
  recognize_action (Some samples.wagging_tail) (Some samples.dog_keypoints_norm)
  = Ok "standing_wagging"
  /\ "standing_wagging" ∈ action_labels
  /\ exists features keypoints_norm,
       recognize_action (Some features) (Some keypoints_norm) = Ok "lying".
Proof.
  destruct recognize_action_label_set as [Hclosed Hreach].
  assert (Hrec : recognize_action (Some samples.wagging_tail)
                   (Some samples.dog_keypoints_norm) = Ok "standing_wagging")
    by (vm_compute; reflexivity).
  split; [exact Hrec|].
  destruct (Hclosed _ _ _ Hrec) as [[Hu _]|[Hin _]]; [discriminate|].
  split; [exact Hin|]. apply Hreach. unfold action_labels. in_list.
Defined.

Lemma recognize_action_raises_on_missing_input_witness :
  (box_ratio_defined (delete "bbox_width" samples.swinging_tail) = true
   /\ recognize_action (Some (delete "bbox_width" samples.swinging_tail))
        (Some samples.dog_keypoints_norm) = Raise (KeyError "bbox_width")
   /\ exists key,
        key ∈ required_keys
        /\ delete "bbox_width" samples.swinging_tail !! key = None)
  /\ (box_ratio_defined samples.wagging_tail = true
      /\ recognize_action (Some samples.wagging_tail)
           (Some samples.dog_keypoints_norm) = Ok "standing_wagging"
      /\ Forall (fun key => is_Some (samples.wagging_tail !! key)) required_keys
      /\ (10 <= length samples.dog_keypoints_norm)%nat).
Proof.
  split.
  - assert (Hbox : box_ratio_defined (delete "bbox_width" samples.swinging_tail)
                   = true) by (vm_compute; reflexivity).
    assert (Hrec : recognize_action (Some (delete "bbox_width" samples.swinging_tail))
                     (Some samples.dog_keypoints_norm) = Raise (KeyError "bbox_width"))
      by (vm_compute; reflexivity).
    split; [exact Hbox|]. split; [exact Hrec|].
    destruct (proj2 (recognize_action_raises_on_missing_input
                       (delete "bbox_width" samples.swinging_tail)
                       samples.dog_keypoints_norm Hbox) _ Hrec)
      as [(key & Hin & Hnone & _)|(_ & _ & Hidx)]; [|discriminate].
    exists key. split; [exact Hin|exact Hnone].
  - assert (Hbox : box_ratio_defined samples.wagging_tail = true)
      by (vm_compute; reflexivity).
    assert (Hrec : recognize_action (Some samples.wagging_tail)
                     (Some samples.dog_keypoints_norm) = Ok "standing_wagging")
      by (vm_compute; reflexivity).
    split; [exact Hbox|]. split; [exact Hrec|].
    exact (proj1 (proj1 (recognize_action_raises_on_missing_input
                           samples.wagging_tail samples.dog_keypoints_norm Hbox))
             (ex_intro _ _ Hrec)).
Defined.

Lemma classification_order_witness :
  exists l,
    read_locals samples.below_jump_threshold samples.dog_keypoints_norm = Ok l
    /\ recognize_action (Some samples.below_jump_threshold)
         (Some samples.dog_keypoints_norm) = Ok "jumping"
    /\ lt (centroid_vy l) JUMP_VELOCITY_THRESHOLD = true.
Proof.
  destruct (is_Ok_true (read_locals samples.below_jump_threshold
                          samples.dog_keypoints_norm))
    as [l Hl]; [vm_compute; reflexivity|].
  exists l.
  assert (Hrec : recognize_action (Some samples.below_jump_threshold)
                   (Some samples.dog_keypoints_norm) = Ok "jumping")
    by (vm_compute; reflexivity).
  split; [exact Hl|]. split; [exact Hrec|].
  destruct (classification_order _ _ l "jumping" Hl Hrec) as [Hjump _].
  by apply Hjump.
Defined.

Lemma statistics_count_the_records_witness :
  exists m,
    stats_of (H := samples.numpy_model) samples.sample_records = Ok m
    /\ dom m = list_to_set (action <$> samples.sample_records)
    /\ foldr Z.add 0 ((fun entry => total_frames entry.2) <$> map_to_list m) = 3.
Proof.
  destruct (stats_of_total (H := samples.numpy_model) samples.sample_records)
    as [m Hm].
  exists m. split; [exact Hm|].
  destruct (statistics_count_the_records (H := samples.numpy_model) _ _ Hm)
    as (Hdom & _ & Hsum).
  split; [exact Hdom|exact Hsum].
Defined.

Lemma records_are_the_detected_frames_witness :
  exists summary,
    analyze_behavior (H := samples.numpy_model)
      [samples.no_detection; samples.dog] = Ok summary
    /\ frame <$> frame_by_frame_data summary = [1].
Proof.
  destruct (is_Ok_true (analyze_behavior (H := samples.numpy_model)
                          [samples.no_detection; samples.dog]))
    as [summary Ha]; [vm_compute; reflexivity|].
  exists summary. split; [exact Ha|].
  destruct (records_are_the_detected_frames (H := samples.numpy_model) _ _ Ha)
    as [Hf _].
  rewrite Hf. reflexivity.
Defined.

Lemma running_buffer_invariant_witness :
  exists st',
    frame_loop (H := samples.numpy_model) samples.two_running 2
      [samples.no_detection; samples.dog] = Ok st'
    /\ running_buffer (motion_history samples.two_running)
    /\ running_buffer (motion_history st').
Proof.
  destruct (is_Ok_true (frame_loop (H := samples.numpy_model) samples.two_running 2
                          [samples.no_detection; samples.dog]))
    as [st' Hloop]; [vm_compute; reflexivity|].
  exists st'.
  assert (Hinv : running_buffer (motion_history samples.two_running)).
  { exists 2%nat. split; [lia|reflexivity]. }
  split; [exact Hloop|]. split; [exact Hinv|].
  exact (proj1 (running_buffer_invariant (H := samples.numpy_model)
                  _ _ _ _ Hloop Hinv)).
Defined.

Lemma summary_parts_agree_witness :
  exists summary,
    analyze_behavior (H := samples.numpy_model)
      [samples.no_detection; samples.dog] = Ok summary
    /\ total_frames_of (action_timeline summary)
       = info_total_frames (summary_video_info summary).
Proof.
  destruct (is_Ok_true (analyze_behavior (H := samples.numpy_model)
                          [samples.no_detection; samples.dog]))
    as [summary Ha]; [vm_compute; reflexivity|].
  exists summary. split; [exact Ha|].
  destruct (summary_parts_agree (H := samples.numpy_model) _ _ Ha)
    as (_ & _ & _ & _ & Htotal & _).
  exact Htotal.
Defined.
